(** * YouTube extractor service: the request handlers of [app.py]

    A shallow embedding of the two POST handlers of the service
    ([extract_audio] for /extract and [get_video_info] for /info) and of the
    Python operations they are built from, followed by the properties of the
    handlers.

    Conventions of the embedding.
    - A Python [str] is a [string]; a character stands for the code point of
      the same number, so the texts covered are those whose code points are
      below 256.  On that range [isspace] and the decimal digits are exactly
      the ones written below.
    - A Python [int] is a [Z].
    - A statement that may raise is a value of [result]: [Ok v] when it
      completes with [v], [Raise e] when exception [e] propagates.
    - [subprocess.run] is the only contact with the outside world.  The
      operating system is an oracle [os] that maps an argument vector and a
      time bound to what the call did.
    - Calls of [logger] only write to the log and are left out. *)

From Stdlib Require Import String Ascii List ZArith NArith Bool Lia.
From Stdlib Require Import DecimalString DecimalPos DecimalZ.
Import ListNotations.
Local Open Scope string_scope.
Local Open Scope Z_scope.

(** ** Python strings *)

Module Py.

Definition code (c : ascii) : N := N_of_ascii c.

(** The line feed, Python's ['\n']. *)
Definition LF : ascii := ascii_of_N 10.

(** [str.isspace] on one character (Py_UNICODE_ISSPACE): TAB, LF, VT, FF,
    CR, the four separators FS, GS, RS, US, the space, NEL and the
    no-break space. *)
Definition isspace (c : ascii) : bool :=
  let n := code c in
  (((9 <=? n) && (n <=? 13)) || ((28 <=? n) && (n <=? 32))
   || (n =? 133) || (n =? 160))%N.

(** [s.lstrip()] *)
Fixpoint lstrip (s : string) : string :=
  match s with
  | EmptyString => EmptyString
  | String c s' => if isspace c then lstrip s' else s
  end.

(** [s.rstrip()] *)
Fixpoint rstrip (s : string) : string :=
  match s with
  | EmptyString => EmptyString
  | String c s' =>
      match rstrip s' with
      | EmptyString => if isspace c then EmptyString else String c EmptyString
      | r => String c r
      end
  end.

(** [s.strip()] *)
Definition strip (s : string) : string := rstrip (lstrip s).

(** [s.split(sep)] for a separator of one character: the pieces between
    the occurrences of [sep], in order; one more piece than there are
    occurrences. *)
Fixpoint split (sep : ascii) (s : string) : list string :=
  match s with
  | EmptyString => [EmptyString]
  | String c s' =>
      if Ascii.eqb c sep then EmptyString :: split sep s'
      else match split sep s' with
           | piece :: pieces => String c piece :: pieces
           | [] => [String c EmptyString]
           end
  end.

(** *** [int(s)]

    CPython first turns the Unicode spaces above 127 into plain spaces
    (any other character above 126 makes the text invalid, which it also
    is here, being no digit), then reads: C white space, an optional
    sign, decimal digits with single underscores between them, C white
    space, end of text.  More digits than [int_max_str_digits] are
    refused. *)

(** Py_ISSPACE: TAB, LF, VT, FF, CR and the space. *)
Definition c_isspace (c : ascii) : bool :=
  let n := code c in (((9 <=? n) && (n <=? 13)) || (n =? 32))%N.

Definition to_ascii_space (c : ascii) : ascii :=
  let n := code c in
  if ((n =? 133) || (n =? 160))%N then " "%char else c.

Fixpoint map_string (f : ascii -> ascii) (s : string) : string :=
  match s with
  | EmptyString => EmptyString
  | String c s' => String (f c) (map_string f s')
  end.

Definition digit_value (c : ascii) : option Z :=
  let n := code c in
  if ((48 <=? n) && (n <=? 57))%N then Some (Z.of_N n - 48) else None.

Fixpoint skip_c_space (s : string) : string :=
  match s with
  | EmptyString => EmptyString
  | String c s' => if c_isspace c then skip_c_space s' else s
  end.

(** The run of digits and underscores at the head of [s]: its digits and
    what follows it.  [prev_underscore] tells whether the character just
    read was an underscore; two in a row, or one at the end of the run,
    are errors. *)
Fixpoint scan_digits (prev_underscore : bool) (s : string)
  : option (list Z * string) :=
  match s with
  | EmptyString => if prev_underscore then None else Some ([], s)
  | String c s' =>
      if Ascii.eqb c "_"%char then
        if prev_underscore then None else scan_digits true s'
      else
        match digit_value c with
        | Some d =>
            match scan_digits false s' with
            | Some (ds, rest) => Some (d :: ds, rest)
            | None => None
            end
        | None => if prev_underscore then None else Some ([], s)
        end
  end.

Definition int_max_str_digits : nat := 4300.

Definition digits_value (ds : list Z) : Z :=
  fold_left (fun acc d => 10 * acc + d) ds 0.

Definition starts_with_underscore (s : string) : bool :=
  match s with
  | String c _ => Ascii.eqb c "_"%char
  | EmptyString => false
  end.

(** The digits of a number, after its sign. *)
Definition long_from_digits (negative : bool) (s : string) : option Z :=
  if starts_with_underscore s then None else
  match scan_digits false s with
  | None => None
  | Some ([], _) => None
  | Some (ds, rest) =>
      if (int_max_str_digits <? length ds)%nat then None else
      match skip_c_space rest with
      | EmptyString =>
          Some (if negative then - digits_value ds else digits_value ds)
      | _ => None
      end
  end.

(** The sign and what follows it. *)
Definition long_from_signed (s : string) : option Z :=
  match s with
  | String "+"%char r => long_from_digits false r
  | String "-"%char r => long_from_digits true r
  | _ => long_from_digits false s
  end.

(** PyLong_FromString in base 10, on text already made plain. *)
Definition long_from_string (s : string) : option Z :=
  long_from_signed (skip_c_space s).

(** [int(s)]: [None] stands for ValueError. *)
Definition int (s : string) : option Z :=
  long_from_string (map_string to_ascii_space s).

(** [str(n)] and [f"{n}"] for an [int]. *)
Definition str_of_int (n : Z) : string := NilZero.string_of_int (Z.to_int n).

(** [sub in s] *)
Fixpoint contains (sub s : string) : bool :=
  String.prefix sub s ||
  match s with
  | EmptyString => false
  | String _ s' => contains sub s'
  end.

(** [xs[i]]: IndexError when [i] is out of range ([None] here). *)
Definition getitem {A : Type} (xs : list A) (i : nat) : option A :=
  nth_error xs i.

End Py.

(** ** Exceptions and results *)

(** The exceptions the handlers meet.  [TimeoutExpired] is
    subprocess.TimeoutExpired, [HTTPException] is FastAPI's, and [Exception]
    stands for an exception of any other class derived from Python's
    Exception (TypeError, FileNotFoundError, IndexError, ...).  The first and
    the last carry the text that [str(e)] gives. *)
Inductive exn : Type :=
| TimeoutExpired (message : string)
| HTTPException (status_code : Z) (detail : string)
| Exception (message : string).

(** [str(e)].  For an HTTPException it is the [__str__] of Starlette's
    class, which FastAPI's inherits:
    [f"{self.status_code}: {self.detail}"]. *)
Definition str (e : exn) : string :=
  match e with
  | TimeoutExpired message => message
  | HTTPException status_code detail =>
      Py.str_of_int status_code ++ ": " ++ detail
  | Exception message => message
  end.

Inductive result (A : Type) : Type :=
| Ok (value : A)
| Raise (e : exn).
Arguments Ok {A} value.
Arguments Raise {A} e.

Definition bind {A B : Type} (c : result A) (k : A -> result B) : result B :=
  match c with
  | Ok v => k v
  | Raise e => Raise e
  end.

(** [try: body  except ...: handler].  Every exception of [exn] derives
    from Python's Exception, HTTPException included, so an [except
    Exception] clause of the handler sees whatever the body raises; what
    the handler raises itself propagates. *)
Definition try_except {A : Type} (body : result A) (handler : exn -> result A)
  : result A :=
  match body with
  | Ok v => Ok v
  | Raise e => handler e
  end.

Declare Scope py_scope.
Delimit Scope py_scope with py.
Notation "x <- c ;; k" := (bind c (fun x => k))
  (at level 61, c at next level, right associativity) : py_scope.
Notation "c ;; k" := (bind c (fun _ => k))
  (at level 61, right associativity) : py_scope.
Local Open Scope py_scope.

(** [if cond: raise e] *)
Definition raise_if (cond : bool) (e : exn) : result unit :=
  if cond then Raise e else Ok tt.

(** An index into a list, raising IndexError out of range. *)
Definition index {A : Type} (xs : list A) (i : nat) : result A :=
  match Py.getitem xs i with
  | Some x => Ok x
  | None => Raise (Exception "list index out of range")
  end.

(** The status code the framework answers with: 200 for a returned value,
    the code of a raised HTTPException, 500 for any other exception. *)
Definition http_status {A : Type} (r : result A) : Z :=
  match r with
  | Ok _ => 200
  | Raise (HTTPException status_code _) => status_code
  | Raise _ => 500
  end.

(** ** Request and response models *)

Module ExtractRequest.
Record t : Type := Build {
  url : string;
  format : option string;
  quality : option string
}.
(** Field defaults of the model. *)
Definition default_format : option string := Some "bestaudio".
Definition default_quality : option string := Some "best".
Definition of_url (u : string) : t := Build u default_format default_quality.
Definition with_quality (q : option string) (r : t) : t :=
  Build (url r) (format r) q.
End ExtractRequest.

Module ExtractResponse.
Record t : Type := Build {
  success : bool;
  url : option string;
  title : option string;
  duration : option Z;
  error : option string
}.
End ExtractResponse.

(** The values held by the dict that /info returns. *)
Inductive pyobj : Type :=
| PyNone
| PyBool (b : bool)
| PyInt (n : Z)
| PyStr (s : string).

(** A dict literal, as its items in order. *)
Definition dict : Type := list (string * pyobj).

(** subprocess.CompletedProcess, with the output captured as text. *)
Record CompletedProcess : Type := {
  returncode : Z;
  stdout : string;
  stderr : string
}.

(** ** The handlers *)

Definition USER_AGENT : string :=
  "Mozilla/5.0 (Windows NT 10.0; Win64; x64) AppleWebKit/537.36 (KHTML, like Gecko) Chrome/120.0.0.0 Safari/537.36".

(** An element of a command list: a [str], or [None] when the request
    carried a null format. *)
Definition arg : Type := option string.

(** The list [cmd] of [extract_audio]. *)
Definition extract_cmd (request : ExtractRequest.t) : list arg :=
  [ Some "yt-dlp";
    Some "--no-playlist";
    Some "--extract-audio";
    Some "--audio-format"; Some "mp3";
    Some "--audio-quality"; Some "0";
    Some "--format"; ExtractRequest.format request;
    Some "--no-warnings";
    Some "--quiet";
    Some "--print"; Some "url";
    Some "--print"; Some "title";
    Some "--print"; Some "duration";
    Some "--user-agent"; Some USER_AGENT;
    Some (ExtractRequest.url request) ].

(** The list [cmd] of [get_video_info]. *)
Definition info_cmd (request : ExtractRequest.t) : list arg :=
  [ Some "yt-dlp";
    Some "--no-playlist";
    Some "--no-warnings";
    Some "--quiet";
    Some "--print"; Some "title";
    Some "--print"; Some "duration";
    Some "--print"; Some "uploader";
    Some "--print"; Some "view_count";
    Some "--user-agent"; Some USER_AGENT;
    Some (ExtractRequest.url request) ].

(** The argument vector of a command list, when every element is a [str]. *)
Fixpoint argv (cmd : list arg) : option (list string) :=
  match cmd with
  | [] => Some []
  | Some a :: cmd' =>
      match argv cmd' with
      | Some v => Some (a :: v)
      | None => None
      end
  | None :: _ => None
  end.

(** [result.stdout.strip().split('\n')] *)
Definition output_lines (out : string) : list string :=
  Py.split Py.LF (Py.strip out).

(** What [subprocess.run(argv, capture_output=True, text=True,
    timeout=seconds)] does for a vector of strings and a bound in seconds:
    it completes, or raises TimeoutExpired when the child outlives the
    bound, or raises something else (the executable is missing, ...). *)
Definition oracle : Type := list string -> Z -> result CompletedProcess.

Section Handlers.

Variable os : oracle.

(** [subprocess.run(cmd, capture_output=True, text=True, timeout=timeout)];
    a [None] in the list is a TypeError before any process starts. *)
Definition subprocess_run (cmd : list arg) (timeout : Z)
  : result CompletedProcess :=
  match argv cmd with
  | Some v => os v timeout
  | None =>
      Raise (Exception "expected str, bytes or os.PathLike object, not NoneType")
  end.

(** POST /extract *)
Definition extract_audio (request : ExtractRequest.t)
  : result ExtractResponse.t :=
  try_except
    (let cmd := extract_cmd request in
     result <- subprocess_run cmd 60 ;;
     raise_if (negb (returncode result =? 0))
       (HTTPException 400
          ("YouTube extraction failed: " ++ stderr result)) ;;
     let output_lines := output_lines (stdout result) in
     raise_if (length output_lines <? 3)%nat
       (HTTPException 400 "Invalid output from yt-dlp") ;;
     line0 <- index output_lines 0 ;;
     let audio_url := Py.strip line0 in
     line1 <- index output_lines 1 ;;
     let title := Py.strip line1 in
     line2 <- index output_lines 2 ;;
     let duration_str := Py.strip line2 in
     let duration :=
       match Py.int duration_str with
       | Some n => Some n
       | None => None
       end in
     Ok (ExtractResponse.Build true (Some audio_url) (Some title)
           duration None))
    (fun e =>
       match e with
       | TimeoutExpired _ =>
           Raise (HTTPException 408
                    "Request timed out. YouTube may be blocking the request.")
       | _ =>
           Raise (HTTPException 500 ("Internal server error: " ++ str e))
       end).

(** POST /info *)
Definition get_video_info (request : ExtractRequest.t) : result dict :=
  try_except
    (let cmd := info_cmd request in
     result <- subprocess_run cmd 30 ;;
     raise_if (negb (returncode result =? 0))
       (HTTPException 400
          ("Failed to get video info: " ++ stderr result)) ;;
     let output_lines := output_lines (stdout result) in
     raise_if (length output_lines <? 4)%nat
       (HTTPException 400 "Invalid output from yt-dlp") ;;
     line0 <- index output_lines 0 ;;
     line1 <- index output_lines 1 ;;
     line2 <- index output_lines 2 ;;
     line3 <- index output_lines 3 ;;
     Ok [ ("success", PyBool true);
          ("title", PyStr (Py.strip line0));
          ("duration", PyStr (Py.strip line1));
          ("uploader", PyStr (Py.strip line2));
          ("view_count", PyStr (Py.strip line3)) ])
    (fun e =>
       Raise (HTTPException 500 ("Internal server error: " ++ str e))).

End Handlers.

(** ** Vocabulary of the properties *)

(** A client error: the handler ends in an HTTPException of status 400. *)
Definition client_error {A : Type} (r : result A) : Prop :=
  exists detail, r = Raise (HTTPException 400 detail).

(** The handler ends in an HTTPException whose detail contains [text]. *)
Definition error_cites {A : Type} (text : string) (r : result A) : Prop :=
  exists status_code detail,
    r = Raise (HTTPException status_code detail) /\
    Py.contains text detail = true.

(** Two requests that differ at most in the quality field. *)
Definition differ_only_in_quality (r1 r2 : ExtractRequest.t) : Prop :=
  ExtractRequest.url r1 = ExtractRequest.url r2 /\
  ExtractRequest.format r1 = ExtractRequest.format r2.

(** The success path of /extract with the fields taken to be the lines
    themselves (the lines counted as the handler counts them, on the
    stripped stdout): url the first line, title the second, duration the
    integer read from the third. *)
Definition extract_fields_are_lines (os : oracle) (request : ExtractRequest.t)
  : Prop :=
  forall p line0 line1 line2 rest n,
    subprocess_run os (extract_cmd request) 60 = Ok p ->
    returncode p = 0 ->
    output_lines (stdout p) = line0 :: line1 :: line2 :: rest ->
    Py.int line2 = Some n ->
    extract_audio os request =
      Ok (ExtractResponse.Build true (Some line0) (Some line1) (Some n) None).

(** Too few lines answered by a client error that cites invalid output,
    whatever the exit status, on both endpoints. *)
Definition invalid_output_whatever_status (os : oracle)
    (request : ExtractRequest.t) : Prop :=
  (forall p,
      subprocess_run os (extract_cmd request) 60 = Ok p ->
      (length (output_lines (stdout p)) < 3)%nat ->
      client_error (extract_audio os request) /\
      error_cites "Invalid output" (extract_audio os request)) /\
  (forall p,
      subprocess_run os (info_cmd request) 30 = Ok p ->
      (length (output_lines (stdout p)) < 4)%nat ->
      client_error (get_video_info os request) /\
      error_cites "Invalid output" (get_video_info os request)).

(** ** Sample requests and processes *)

Definition nl : string := String Py.LF EmptyString.

Definition sample_request : ExtractRequest.t :=
  ExtractRequest.of_url "https://www.youtube.com/watch?v=abc".

(** A process that completes with [p] whatever the bound. *)
Definition completes (p : CompletedProcess) : oracle :=
  fun _ _ => Ok p.

(** A process that needs [seconds] to complete with [p]: a call with a
    smaller bound raises TimeoutExpired. *)
Definition takes (seconds : Z) (p : CompletedProcess) : oracle :=
  fun _ timeout =>
    if timeout <? seconds
    then Raise (TimeoutExpired
                  ("Command timed out after " ++ Py.str_of_int timeout
                   ++ " seconds"))
    else Ok p.

(** yt-dlp refuses the video. *)
Definition failed_process : CompletedProcess :=
  {| returncode := 1; stdout := ""; stderr := "ERROR: Video unavailable" |}.

(** The mocked output of the specification. *)
Definition mocked_process : CompletedProcess :=
  {| returncode := 0;
     stdout := "http://media/1" ++ nl ++ "Song Title" ++ nl ++ "213" ++ nl;
     stderr := "" |}.

(** The mocked output followed by one more line. *)
Definition mocked_extra_process : CompletedProcess :=
  {| returncode := 0;
     stdout := "http://media/1" ++ nl ++ "Song Title" ++ nl ++ "213" ++ nl
               ++ "extra" ++ nl;
     stderr := "" |}.

(** A title printed with blanks around it. *)
Definition padded_process : CompletedProcess :=
  {| returncode := 0;
     stdout := "http://media/1" ++ nl ++ "  Song Title  " ++ nl ++ "213" ++ nl;
     stderr := "" |}.

(** A live stream: no duration. *)
Definition live_process : CompletedProcess :=
  {| returncode := 0;
     stdout := "http://media/1" ++ nl ++ "Song Title" ++ nl ++ "N/A" ++ nl;
     stderr := "" |}.

(** Exit status zero and nothing printed. *)
Definition silent_process : CompletedProcess :=
  {| returncode := 0; stdout := ""; stderr := "" |}.

(** The four fields of /info, and one more line. *)
Definition info_process : CompletedProcess :=
  {| returncode := 0;
     stdout := "Song Title" ++ nl ++ "213" ++ nl ++ "Some Channel" ++ nl
               ++ "1000" ++ nl ++ "extra" ++ nl;
     stderr := "" |}.

(** ** The other endpoints and the start-up *)

(** GET / *)
Definition root : dict :=
  [ ("message", PyStr "YouTube Extractor API"); ("status", PyStr "running") ].

(** GET /health *)
Definition health_check : dict := [ ("status", PyStr "healthy") ].

(** [os.environ]: the value of each variable that is set. *)
Definition environ : Type := string -> option string.

(** [int(os.environ.get("PORT", 8000))] of the main block: the port handed
    to the server; [None] when [int] raises ValueError and the start-up
    ends there.  The default is the int 8000, which [int] returns as it
    is. *)
Definition main_port (env : environ) : option Z :=
  match env "PORT" with
  | Some value => Py.int value
  | None => Some 8000
  end.

(** The characters of a text. *)
Definition chars (s : string) : list ascii := list_ascii_of_string s.

(** The digits of a decimal numeral, most significant first. *)
Fixpoint uint_digits (d : Decimal.uint) : list Z :=
  match d with
  | Decimal.Nil => []
  | Decimal.D0 d => 0 :: uint_digits d
  | Decimal.D1 d => 1 :: uint_digits d
  | Decimal.D2 d => 2 :: uint_digits d
  | Decimal.D3 d => 3 :: uint_digits d
  | Decimal.D4 d => 4 :: uint_digits d
  | Decimal.D5 d => 5 :: uint_digits d
  | Decimal.D6 d => 6 :: uint_digits d
  | Decimal.D7 d => 7 :: uint_digits d
  | Decimal.D8 d => 8 :: uint_digits d
  | Decimal.D9 d => 9 :: uint_digits d
  end.

(** ** Lines and trimming, by their meaning *)

(** White space, as [str.strip] understands it, by code point: TAB, LF,
    VT, FF, CR, FS, GS, RS, US, the space, NEL and the no-break space. *)
Definition whitespace (c : ascii) : Prop :=
  In (Py.code c) [9; 10; 11; 12; 13; 28; 29; 30; 31; 32; 133; 160]%N.

(** A text of white space only. *)
Definition blank (s : string) : Prop := Forall whitespace (chars s).

(** [field] is [line] with its leading and trailing white space removed:
    [line] is [field] between two blank texts, and [field] neither starts
    nor ends with white space. *)
Definition trimmed_from (line field : string) : Prop :=
  (exists before after,
      line = before ++ field ++ after /\ blank before /\ blank after) /\
  (forall c rest, field = String c rest -> ~ whitespace c) /\
  (forall front c, field = front ++ String c "" -> ~ whitespace c).

(** [sep.join(pieces)] *)
Fixpoint join (sep : ascii) (pieces : list string) : string :=
  match pieces with
  | [] => ""
  | [piece] => piece
  | piece :: pieces' => piece ++ String sep (join sep pieces')
  end.

(** [lines] are the lines of the output [out] once the whole of it is
    trimmed: texts without line feed that, joined by line feeds, give the
    trimmed output. *)
Definition lines_of_output (out : string) (lines : list string) : Prop :=
  lines <> [] /\
  Forall (fun line => ~ In Py.LF (chars line)) lines /\
  trimmed_from out (join Py.LF lines).

(** The lines of a text as printed: a line feed ends a line, so a text that
    ends with one has no empty line after it. *)
Definition text_lines (out : string) : list string :=
  let pieces := Py.split Py.LF out in
  match last pieces "" with
  | EmptyString => removelast pieces
  | _ => pieces
  end.

(** The success path of /extract without a duration, read on the lines of
    stdout as printed: zero exit status, at least three lines, the third
    not an integer for [int]; then success=true, url and title set, no
    duration, no error. *)
Definition duration_absent_on_printed_lines (os : oracle)
    (request : ExtractRequest.t) : Prop :=
  forall p line0 line1 line2 rest,
    subprocess_run os (extract_cmd request) 60 = Ok p ->
    returncode p = 0 ->
    text_lines (stdout p) = line0 :: line1 :: line2 :: rest ->
    Py.int line2 = None ->
    exists u t,
      extract_audio os request =
        Ok (ExtractResponse.Build true (Some u) (Some t) None None).

(** The success path of /info read on the lines of stdout as printed: zero
    exit status and at least four lines; then success=True and four
    strings, the first four lines in order, trimmed at most. *)
Definition info_maps_printed_lines (os : oracle)
    (request : ExtractRequest.t) : Prop :=
  forall p line0 line1 line2 line3 rest,
    subprocess_run os (info_cmd request) 30 = Ok p ->
    returncode p = 0 ->
    text_lines (stdout p) = line0 :: line1 :: line2 :: line3 :: rest ->
    get_video_info os request =
      Ok [ ("success", PyBool true);
           ("title", PyStr (Py.strip line0));
           ("duration", PyStr (Py.strip line1));
           ("uploader", PyStr (Py.strip line2));
           ("view_count", PyStr (Py.strip line3)) ].

(** Two argument vectors are the same. *)
Fixpoint argv_eqb (v w : list string) : bool :=
  match v, w with
  | [], [] => true
  | a :: v', b :: w' => String.eqb a b && argv_eqb v' w'
  | _, _ => false
  end.

(** A machine on which only the command [v], run under the bound [bound],
    completes, with [p]; any other call finds no such program. *)
Definition answers_only (v : list string) (bound : Z) (p : CompletedProcess)
  : oracle :=
  fun w timeout =>
    if argv_eqb w v && (timeout =? bound)
    then Ok p
    else Raise (Exception "[Errno 2] No such file or directory").

(** A third line left empty. *)
Definition blank_third_process : CompletedProcess :=
  {| returncode := 0;
     stdout := "http://media/1" ++ nl ++ "Song Title" ++ nl ++ nl;
     stderr := "" |}.

(** A third line that starts with the separator US. *)
Definition separator_third_process : CompletedProcess :=
  {| returncode := 0;
     stdout := "http://media/1" ++ nl ++ "Song Title" ++ nl
               ++ String (ascii_of_N 31) "5" ++ nl ++ "extra" ++ nl;
     stderr := "" |}.

(** A fourth line left empty. *)
Definition blank_fourth_process : CompletedProcess :=
  {| returncode := 0;
     stdout := "Song Title" ++ nl ++ "213" ++ nl ++ "Some Channel" ++ nl ++ nl;
     stderr := "" |}.

(** An empty line first, then the four fields. *)
Definition blank_first_process : CompletedProcess :=
  {| returncode := 0;
     stdout := nl ++ "Song Title" ++ nl ++ "213" ++ nl ++ "Some Channel" ++ nl
               ++ "1000" ++ nl;
     stderr := "" |}.

(** A live stream printed with blanks around the lines. *)
Definition padded_live_process : CompletedProcess :=
  {| returncode := 0;
     stdout := "http://media/1" ++ nl ++ "  Song Title  " ++ nl ++ " N/A "
               ++ nl;
     stderr := "" |}.

(** The four fields of /info with blanks around them. *)
Definition padded_info_process : CompletedProcess :=
  {| returncode := 0;
     stdout := " Song Title " ++ nl ++ "213  " ++ nl ++ "  Some Channel"
               ++ nl ++ " 1000 " ++ nl;
     stderr := "" |}.

(** ** Helper lemmas on the handlers *)

(** The text of an HTTPException: its status, a colon, its detail. *)
Lemma str_HTTPException_400 (detail : string) :
  str (HTTPException 400 detail) = "400: " ++ detail.
Proof. reflexivity. Qed.

Section HandlerFacts.

Variable os : oracle.
Variable request : ExtractRequest.t.

Lemma extract_audio_raised (e : exn) :
  subprocess_run os (extract_cmd request) 60 = Raise e ->
  extract_audio os request =
    match e with
    | TimeoutExpired _ =>
        Raise (HTTPException 408
                 "Request timed out. YouTube may be blocking the request.")
    | _ => Raise (HTTPException 500 ("Internal server error: " ++ str e))
    end.
Proof.
  intros Hrun. unfold extract_audio. rewrite Hrun. reflexivity.
Qed.

Lemma extract_audio_nonzero (p : CompletedProcess) :
  subprocess_run os (extract_cmd request) 60 = Ok p ->
  returncode p <> 0 ->
  extract_audio os request =
    Raise (HTTPException 500
             ("Internal server error: 400: YouTube extraction failed: "
              ++ stderr p)).
Proof.
  intros Hrun Hrc. unfold extract_audio. rewrite Hrun. cbn [bind].
  apply Z.eqb_neq in Hrc. rewrite Hrc. reflexivity.
Qed.

Lemma extract_audio_few_lines (p : CompletedProcess) :
  subprocess_run os (extract_cmd request) 60 = Ok p ->
  returncode p = 0 ->
  (length (output_lines (stdout p)) < 3)%nat ->
  extract_audio os request =
    Raise (HTTPException 500
             "Internal server error: 400: Invalid output from yt-dlp").
Proof.
  intros Hrun Hrc Hlen. unfold extract_audio. rewrite Hrun. cbn [bind].
  rewrite Hrc. cbn [Z.eqb negb raise_if bind].
  apply Nat.ltb_lt in Hlen. rewrite Hlen. reflexivity.
Qed.

Lemma extract_audio_lines (p : CompletedProcess)
    (line0 line1 line2 : string) (rest : list string) :
  subprocess_run os (extract_cmd request) 60 = Ok p ->
  returncode p = 0 ->
  output_lines (stdout p) = line0 :: line1 :: line2 :: rest ->
  extract_audio os request =
    Ok (ExtractResponse.Build true (Some (Py.strip line0))
          (Some (Py.strip line1)) (Py.int (Py.strip line2)) None).
Proof.
  intros Hrun Hrc Hlines. unfold extract_audio. rewrite Hrun. cbn [bind].
  rewrite Hrc, Hlines. cbn [Z.eqb negb raise_if bind length Nat.ltb Nat.leb].
  cbn [index Py.getitem nth_error bind try_except].
  destruct (Py.int (Py.strip line2)); reflexivity.
Qed.

Lemma get_video_info_raised (e : exn) :
  subprocess_run os (info_cmd request) 30 = Raise e ->
  get_video_info os request =
    Raise (HTTPException 500 ("Internal server error: " ++ str e)).
Proof.
  intros Hrun. unfold get_video_info. rewrite Hrun. reflexivity.
Qed.

Lemma get_video_info_nonzero (p : CompletedProcess) :
  subprocess_run os (info_cmd request) 30 = Ok p ->
  returncode p <> 0 ->
  get_video_info os request =
    Raise (HTTPException 500
             ("Internal server error: 400: Failed to get video info: "
              ++ stderr p)).
Proof.
  intros Hrun Hrc. unfold get_video_info. rewrite Hrun. cbn [bind].
  apply Z.eqb_neq in Hrc. rewrite Hrc. reflexivity.
Qed.

Lemma get_video_info_few_lines (p : CompletedProcess) :
  subprocess_run os (info_cmd request) 30 = Ok p ->
  returncode p = 0 ->
  (length (output_lines (stdout p)) < 4)%nat ->
  get_video_info os request =
    Raise (HTTPException 500
             "Internal server error: 400: Invalid output from yt-dlp").
Proof.
  intros Hrun Hrc Hlen. unfold get_video_info. rewrite Hrun. cbn [bind].
  rewrite Hrc. cbn [Z.eqb negb raise_if bind].
  apply Nat.ltb_lt in Hlen. rewrite Hlen. reflexivity.
Qed.

Lemma get_video_info_lines (p : CompletedProcess)
    (line0 line1 line2 line3 : string) (rest : list string) :
  subprocess_run os (info_cmd request) 30 = Ok p ->
  returncode p = 0 ->
  output_lines (stdout p) = line0 :: line1 :: line2 :: line3 :: rest ->
  get_video_info os request =
    Ok [ ("success", PyBool true);
         ("title", PyStr (Py.strip line0));
         ("duration", PyStr (Py.strip line1));
         ("uploader", PyStr (Py.strip line2));
         ("view_count", PyStr (Py.strip line3)) ].
Proof.
  intros Hrun Hrc Hlines. unfold get_video_info. rewrite Hrun. cbn [bind].
  rewrite Hrc, Hlines. reflexivity.
Qed.

End HandlerFacts.

(** Each handler makes one call of the process, with its own command and
    bound: two worlds that agree on that call get the same answer. *)
Lemma extract_audio_one_call (os os' : oracle) (request : ExtractRequest.t) :
  subprocess_run os' (extract_cmd request) 60 =
    subprocess_run os (extract_cmd request) 60 ->
  extract_audio os' request = extract_audio os request.
Proof.
  intros H. unfold extract_audio. rewrite H. reflexivity.
Qed.

Lemma get_video_info_one_call (os os' : oracle) (request : ExtractRequest.t) :
  subprocess_run os' (info_cmd request) 30 =
    subprocess_run os (info_cmd request) 30 ->
  get_video_info os' request = get_video_info os request.
Proof.
  intros H. unfold get_video_info. rewrite H. reflexivity.
Qed.

(** A text contains each of its parts. *)
Lemma prefix_app (sub post : string) : String.prefix sub (sub ++ post) = true.
Proof.
  induction sub as [|c sub IH].
  - destruct post; reflexivity.
  - cbn. destruct (ascii_dec c c) as [_|Hne]; [exact IH | contradiction].
Qed.

Lemma contains_app (sub pre post : string) :
  Py.contains sub (pre ++ sub ++ post) = true.
Proof.
  induction pre as [|c pre IH].
  - cbn [append]. destruct (sub ++ post) eqn:E; cbn [Py.contains];
      rewrite <- E, prefix_app; reflexivity.
  - cbn [append Py.contains]. rewrite IH. apply orb_true_r.
Qed.

Lemma append_empty (s : string) : s ++ "" = s.
Proof.
  induction s as [|c s IH]; cbn; [reflexivity | now rewrite IH].
Qed.

Lemma contains_end (sub pre : string) : Py.contains sub (pre ++ sub) = true.
Proof.
  rewrite <- (append_empty sub) at 2. apply contains_app.
Qed.

(** ** The string operations on samples *)

Example strip_sample :
  Py.strip ("  Song Title " ++ nl) = "Song Title" /\
  Py.strip (nl ++ nl) = "" /\ Py.strip "a b" = "a b".
Proof. repeat split; reflexivity. Qed.

Example split_sample :
  Py.split Py.LF ("a" ++ nl ++ "b" ++ nl) = ["a"; "b"; ""] /\
  Py.split Py.LF "" = [""].
Proof. split; reflexivity. Qed.

Example output_lines_sample :
  output_lines (stdout mocked_process) =
    ["http://media/1"; "Song Title"; "213"] /\
  output_lines "" = [""] /\
  output_lines (nl ++ "a" ++ nl ++ nl ++ "b" ++ nl) = ["a"; ""; "b"].
Proof. repeat split; reflexivity. Qed.

Example int_sample :
  Py.int "213" = Some 213 /\ Py.int " -1_0 " = Some (-10) /\
  Py.int "0012" = Some 12 /\ Py.int "+7" = Some 7 /\
  Py.int "N/A" = None /\ Py.int "" = None /\ Py.int "3.5" = None /\
  Py.int "1__0" = None /\ Py.int "_1" = None /\ Py.int "1_" = None /\
  Py.int "+ 5" = None.
Proof. repeat split; reflexivity. Qed.

(** ** [int] and [strip] *)







Lemma rstrip_cons (c : ascii) (s : string) :
  Py.rstrip (String c s) =
    match Py.rstrip s with
    | EmptyString => if Py.isspace c then "" else String c ""
    | r => String c r
    end.
Proof. reflexivity. Qed.

Lemma rstrip_cons_nonspace (c : ascii) (s : string) :
  Py.isspace c = false -> Py.rstrip (String c s) = String c (Py.rstrip s).
Proof.
  intros H. rewrite rstrip_cons, H. destruct (Py.rstrip s); reflexivity.
Qed.











(** ** Text appended to the output *)


Lemma split_not_nil (sep : ascii) (s : string) : Py.split sep s <> [].
Proof.
  destruct s as [|c s]; cbn; [discriminate|].
  destruct (Ascii.eqb c sep); [discriminate|].
  destruct (Py.split sep s); discriminate.
Qed.

(** The pieces of [u ++ x]: those of [u], the last of them continued by
    the first piece of [x], then the other pieces of [x]. *)
Lemma split_app (sep : ascii) (u x : string) :
  Py.split sep (u ++ x) =
    (removelast (Py.split sep u)
     ++ (last (Py.split sep u) "" ++ hd "" (Py.split sep x))%string
        :: tl (Py.split sep x))%list.
Proof.
  induction u as [|c u IH].
  - cbn. pose proof (split_not_nil sep x) as Hx.
    destruct (Py.split sep x); [contradiction | reflexivity].
  - cbn [append Py.split]. rewrite IH.
    pose proof (split_not_nil sep u) as Hu.
    destruct (Ascii.eqb c sep).
    + destruct (Py.split sep u) as [|p ps]; [contradiction|]. reflexivity.
    + destruct (Py.split sep u) as [|p [|q ps]]; [contradiction| |];
        reflexivity.
Qed.

Lemma lstrip_app (s t : string) :
  Py.lstrip s <> "" -> Py.lstrip (s ++ t) = Py.lstrip s ++ t.
Proof.
  induction s as [|c s IH]; intros H; [contradiction|].
  cbn [append Py.lstrip] in *. destruct (Py.isspace c); [apply IH, H|].
  reflexivity.
Qed.

Lemma rstrip_app_blank (s t : string) :
  Py.rstrip t = "" -> Py.rstrip (s ++ t) = Py.rstrip s.
Proof.
  intros Ht. induction s as [|c s IH]; [exact Ht|].
  cbn [append]. rewrite !rstrip_cons, IH. reflexivity.
Qed.


(** A text is its [rstrip] followed by white space. *)
Lemma rstrip_tail (s : string) :
  exists w, s = Py.rstrip s ++ w /\ Py.rstrip w = "".
Proof.
  induction s as [|c s (w & Hs & Hw)]; [exists ""; split; reflexivity|].
  rewrite rstrip_cons. destruct (Py.rstrip s) as [|c' r] eqn:Hr.
  - cbn [append] in Hs. subst w. destruct (Py.isspace c) eqn:Hc.
    + exists (String c s). split; [reflexivity|].
      rewrite rstrip_cons, Hw, Hc. reflexivity.
    + exists s. split; [reflexivity | exact Hw].
  - exists w. split; [|exact Hw].
    change (String c s = String c (String c' r ++ w)). f_equal. exact Hs.
Qed.

Lemma rstrip_blank_lstrip (w : string) : Py.rstrip w = "" -> Py.lstrip w = "".
Proof.
  induction w as [|c w IH]; [reflexivity|]. rewrite rstrip_cons.
  destruct (Py.rstrip w); [|discriminate].
  cbn [Py.lstrip]. destruct (Py.isspace c); [intros _; now apply IH|discriminate].
Qed.

Lemma rstrip_idem (s : string) : Py.rstrip (Py.rstrip s) = Py.rstrip s.
Proof.
  induction s as [|c s IH]; [reflexivity|]. rewrite rstrip_cons.
  destruct (Py.rstrip s) as [|c' r] eqn:Hr.
  - destruct (Py.isspace c) eqn:Hc; [reflexivity|].
    rewrite rstrip_cons. cbn [Py.rstrip]. now rewrite Hc.
  - rewrite rstrip_cons, IH. reflexivity.
Qed.








(** ** Non-zero exit status *)

(** On a non-zero exit status either handler raises its HTTPException 400
    inside the [try] block, and the catch-all clause of that block answers
    it with a 500 whose detail wraps the text of the 400; stderr is still
    found in it. *)
Lemma nonzero_exit_detail_has_stderr (os : oracle)
    (request : ExtractRequest.t) (p : CompletedProcess) :
  returncode p <> 0 ->
  (subprocess_run os (extract_cmd request) 60 = Ok p ->
   http_status (extract_audio os request) = 500 /\
   error_cites (stderr p) (extract_audio os request)) /\
  (subprocess_run os (info_cmd request) 30 = Ok p ->
   http_status (get_video_info os request) = 500 /\
   error_cites (stderr p) (get_video_info os request)).
Proof.
  intros Hrc; split; intros Hrun.
  - rewrite (extract_audio_nonzero os request p Hrun Hrc).
    split; [reflexivity|]. eexists _, _; split; [reflexivity|].
    apply contains_end.
  - rewrite (get_video_info_nonzero os request p Hrun Hrc).
    split; [reflexivity|]. eexists _, _; split; [reflexivity|].
    apply contains_end.
Qed.

(** C1 (the code departs from the claim).  The claim: a non-zero exit
    status is answered by a client error, HTTP 400, whose message contains
    stderr.  When yt-dlp exits with status 1 and "ERROR: Video unavailable"
    on stderr, /extract and /info both answer with status 500: the 400 they
    raise is caught by their own catch-all clause.  Neither answer is a
    client error. *)
Theorem C1_nonzero_exit_is_answered_500 :
  extract_audio (completes failed_process) sample_request =
    Raise (HTTPException 500
      "Internal server error: 400: YouTube extraction failed: ERROR: Video unavailable") /\
  get_video_info (completes failed_process) sample_request =
    Raise (HTTPException 500
      "Internal server error: 400: Failed to get video info: ERROR: Video unavailable") /\
  ~ client_error (extract_audio (completes failed_process) sample_request) /\
  ~ client_error (get_video_info (completes failed_process) sample_request).
Proof.
  repeat split; try reflexivity; intros [detail H]; vm_compute in H;
    discriminate H.
Qed.

(** ** The success path of /extract *)

(** C2, as amended.  When the process exits with status zero, the stripped
    stdout has at least three lines and the third is read by [int] as [n]
    (trimmed, as the handler reads it; by [int_strip] this covers every
    line that [int] reads as it stands), /extract returns success=true with
    url the first line with leading and trailing white space removed,
    title the second line with leading and trailing white space removed,
    duration [n] and no error. *)
Theorem C2_extract_success (os : oracle) (request : ExtractRequest.t)
    (p : CompletedProcess) (line0 line1 line2 : string)
    (rest : list string) (n : Z) :
  subprocess_run os (extract_cmd request) 60 = Ok p ->
  returncode p = 0 ->
  output_lines (stdout p) = line0 :: line1 :: line2 :: rest ->
  Py.int (Py.strip line2) = Some n ->
  extract_audio os request =
    Ok (ExtractResponse.Build true (Some (Py.strip line0))
          (Some (Py.strip line1)) (Some n) None).
Proof.
  intros Hrun Hrc Hlines Hint.
  rewrite (extract_audio_lines os request p _ _ _ _ Hrun Hrc Hlines), Hint.
  reflexivity.
Qed.

(** The mocked output "http://media/1\nSong Title\n213\n" gives
    {success: true, url: "http://media/1", title: "Song Title",
    duration: 213}. *)
Lemma C2_extract_success_mocked :
  extract_audio (completes mocked_process) sample_request =
    Ok (ExtractResponse.Build true (Some "http://media/1")
          (Some "Song Title") (Some 213) None).
Proof.
  apply (C2_extract_success (completes mocked_process) sample_request
           mocked_process "http://media/1" "Song Title" "213" [] 213);
    reflexivity.
Defined.

(** C2 as stated fails: a title printed as "  Song Title  " comes back as
    "Song Title", which is not the second line. *)
Lemma C2_fields_are_not_the_lines :
  ~ extract_fields_are_lines (completes padded_process) sample_request.
Proof.
  intros H.
  specialize (H padded_process "http://media/1" "  Song Title  " "213" []
                213 eq_refl eq_refl eq_refl eq_refl).
  vm_compute in H. discriminate H.
Qed.

(** ** Too few lines *)

(** C4, as amended.  When the process exits with status zero and the
    stripped stdout has fewer than three lines (/extract) or fewer than
    four (/info), the handler ends in an HTTP error whose message cites
    invalid output.  When the exit status is not zero the check of the
    status comes first: whatever the number of lines, the error reports the
    failed run and its stderr. *)
Theorem C4_too_few_lines (os : oracle) (request : ExtractRequest.t) :
  (forall p,
      subprocess_run os (extract_cmd request) 60 = Ok p ->
      returncode p = 0 ->
      (length (output_lines (stdout p)) < 3)%nat ->
      error_cites "Invalid output from yt-dlp" (extract_audio os request)) /\
  (forall p,
      subprocess_run os (info_cmd request) 30 = Ok p ->
      returncode p = 0 ->
      (length (output_lines (stdout p)) < 4)%nat ->
      error_cites "Invalid output from yt-dlp" (get_video_info os request)) /\
  (forall p,
      subprocess_run os (extract_cmd request) 60 = Ok p ->
      returncode p <> 0 ->
      error_cites ("YouTube extraction failed: " ++ stderr p)
        (extract_audio os request)) /\
  (forall p,
      subprocess_run os (info_cmd request) 30 = Ok p ->
      returncode p <> 0 ->
      error_cites ("Failed to get video info: " ++ stderr p)
        (get_video_info os request)).
Proof.
  repeat split.
  - intros p Hrun Hrc Hlen.
    rewrite (extract_audio_few_lines os request p Hrun Hrc Hlen).
    eexists _, _; split; reflexivity.
  - intros p Hrun Hrc Hlen.
    rewrite (get_video_info_few_lines os request p Hrun Hrc Hlen).
    eexists _, _; split; reflexivity.
  - intros p Hrun Hrc.
    rewrite (extract_audio_nonzero os request p Hrun Hrc).
    eexists _, _; split; [reflexivity|].
    apply (contains_end ("YouTube extraction failed: " ++ stderr p)
             "Internal server error: 400: ").
  - intros p Hrun Hrc.
    rewrite (get_video_info_nonzero os request p Hrun Hrc).
    eexists _, _; split; [reflexivity|].
    apply (contains_end ("Failed to get video info: " ++ stderr p)
             "Internal server error: 400: ").
Qed.

Lemma C4_too_few_lines_silent :
  error_cites "Invalid output from yt-dlp"
    (extract_audio (completes silent_process) sample_request) /\
  error_cites "Invalid output from yt-dlp"
    (get_video_info (completes silent_process) sample_request).
Proof.
  split.
  - apply (proj1 (C4_too_few_lines (completes silent_process) sample_request)
             silent_process); [reflexivity | reflexivity | cbn; lia].
  - apply (proj1 (proj2 (C4_too_few_lines (completes silent_process)
                            sample_request))
             silent_process); [reflexivity | reflexivity | cbn; lia].
Defined.

(** C4 as stated fails: when yt-dlp prints nothing and exits with status 1,
    the stdout has fewer lines than either handler needs, and neither
    handler's error cites invalid output; both report the failed run. *)
Lemma C4_exit_status_comes_first :
  (length (output_lines (stdout failed_process)) < 3)%nat /\
  ~ error_cites "Invalid output"
      (extract_audio (completes failed_process) sample_request) /\
  ~ error_cites "Invalid output"
      (get_video_info (completes failed_process) sample_request) /\
  ~ invalid_output_whatever_status (completes failed_process) sample_request.
Proof.
  assert (Hlen : (length (output_lines (stdout failed_process)) < 3)%nat)
    by (cbn; lia).
  assert (Hextract : ~ error_cites "Invalid output"
            (extract_audio (completes failed_process) sample_request)).
  { intros (status_code & detail & Heq & Hin).
    vm_compute in Heq. injection Heq as <- <-. vm_compute in Hin.
    discriminate Hin. }
  repeat split; try assumption.
  - intros (status_code & detail & Heq & Hin).
    vm_compute in Heq. injection Heq as <- <-. vm_compute in Hin.
    discriminate Hin.
  - intros [H _]. apply Hextract.
    apply (H failed_process); [reflexivity | exact Hlen].
Qed.

(** ** Timeouts *)

(** C5.  When the call of /extract, made with a bound of 60 seconds, raises
    TimeoutExpired, the handler answers with status 408, not 500, and the
    message says that YouTube may be blocking the request. *)
Theorem C5_extract_timeout (os : oracle) (request : ExtractRequest.t)
    (message : string) :
  subprocess_run os (extract_cmd request) 60 = Raise (TimeoutExpired message) ->
  extract_audio os request =
    Raise (HTTPException 408
             "Request timed out. YouTube may be blocking the request.") /\
  http_status (extract_audio os request) = 408 /\
  http_status (extract_audio os request) <> 500 /\
  error_cites "YouTube may be blocking the request"
    (extract_audio os request).
Proof.
  intros Hrun. rewrite (extract_audio_raised os request _ Hrun).
  repeat split; [discriminate|]. eexists _, _; split; reflexivity.
Qed.

Lemma C5_extract_timeout_61_seconds :
  http_status (extract_audio (takes 61 mocked_process) sample_request) = 408.
Proof.
  apply (C5_extract_timeout (takes 61 mocked_process) sample_request
           "Command timed out after 60 seconds"); reflexivity.
Defined.

(** C6.  /info calls the process with a bound of 30 seconds; when that call
    raises TimeoutExpired the handler has no clause of its own for it and
    answers like for any other exception: status 500, "Internal server
    error: " followed by the text of the exception.  What the process would
    do under another bound plays no part. *)
Theorem C6_info_timeout (os : oracle) (request : ExtractRequest.t)
    (message : string) :
  subprocess_run os (info_cmd request) 30 = Raise (TimeoutExpired message) ->
  get_video_info os request =
    Raise (HTTPException 500 ("Internal server error: " ++ message)) /\
  get_video_info os request =
    get_video_info (fun _ _ => Raise (Exception message)) request /\
  (forall os' : oracle,
      (forall v, os' v 30 = os v 30) ->
      get_video_info os' request = get_video_info os request).
Proof.
  intros Hrun. rewrite (get_video_info_raised os request _ Hrun).
  repeat split. intros os' Hsame.
  rewrite <- (get_video_info_raised os request _ Hrun).
  apply get_video_info_one_call. unfold subprocess_run.
  destruct (argv (info_cmd request)); [apply Hsame | reflexivity].
Qed.

(** A download that needs 45 seconds is within the bound of /extract and
    beyond the bound of /info. *)
Lemma C6_info_timeout_45_seconds :
  get_video_info (takes 45 info_process) sample_request =
    Raise (HTTPException 500
             "Internal server error: Command timed out after 30 seconds").
Proof.
  apply (C6_info_timeout (takes 45 info_process) sample_request
           "Command timed out after 30 seconds"); reflexivity.
Defined.

(** ** The quality field *)

(** C9.  Two requests that differ only in the quality field give the same
    command list on either endpoint and, the process behaving the same, the
    same answer. *)
Theorem C9_quality_is_ignored (os : oracle) (r1 r2 : ExtractRequest.t) :
  differ_only_in_quality r1 r2 ->
  extract_cmd r1 = extract_cmd r2 /\
  info_cmd r1 = info_cmd r2 /\
  extract_audio os r1 = extract_audio os r2 /\
  get_video_info os r1 = get_video_info os r2.
Proof.
  intros [Hurl Hformat].
  assert (Hextract : extract_cmd r1 = extract_cmd r2)
    by (unfold extract_cmd; rewrite Hurl, Hformat; reflexivity).
  assert (Hinfo : info_cmd r1 = info_cmd r2)
    by (unfold info_cmd; rewrite Hurl; reflexivity).
  repeat split; try assumption.
  - unfold extract_audio. rewrite Hextract. reflexivity.
  - unfold get_video_info. rewrite Hinfo. reflexivity.
Qed.

Lemma C9_quality_is_ignored_sample :
  extract_audio (completes mocked_process)
    (ExtractRequest.with_quality (Some "worst") sample_request) =
  extract_audio (completes mocked_process) sample_request.
Proof.
  apply (C9_quality_is_ignored (completes mocked_process)
           (ExtractRequest.with_quality (Some "worst") sample_request)
           sample_request).
  split; reflexivity.
Defined.

(** ** Decimal numerals read back *)

Lemma scan_digits_numeral (d : Decimal.uint) :
  Py.scan_digits false (NilEmpty.string_of_uint d) = Some (uint_digits d, "").
Proof.
  induction d; cbn [NilEmpty.string_of_uint uint_digits]; [reflexivity | ..];
    cbn [Py.scan_digits]; cbn -[Py.scan_digits]; rewrite IHd; reflexivity.
Qed.

Lemma digits_value_acc (d : Decimal.uint) (acc : positive) :
  fold_left (fun a x => 10 * a + x) (uint_digits d) (Z.pos acc) =
    Z.pos (Pos.of_uint_acc d acc).
Proof.
  revert acc. induction d; intros acc; cbn [uint_digits fold_left Pos.of_uint_acc];
    [reflexivity | ..]; rewrite <- IHd; f_equal; lia.
Qed.

Lemma digits_value_numeral (d : Decimal.uint) :
  Py.digits_value (uint_digits d) = Z.of_uint d.
Proof.
  unfold Py.digits_value, Z.of_uint.
  induction d; cbn [uint_digits fold_left Pos.of_uint]; [reflexivity | exact IHd | ..];
    cbn [Z.of_N]; rewrite <- digits_value_acc; reflexivity.
Qed.

Lemma length_uint_digits (d : Decimal.uint) :
  length (uint_digits d) = String.length (NilEmpty.string_of_uint d).
Proof.
  induction d; cbn; congruence.
Qed.

Lemma long_from_digits_numeral (negative : bool) (d : Decimal.uint) :
  d <> Decimal.Nil ->
  (String.length (NilEmpty.string_of_uint d) <= Py.int_max_str_digits)%nat ->
  Py.long_from_digits negative (NilEmpty.string_of_uint d) =
    Some (if negative then - Z.of_uint d else Z.of_uint d).
Proof.
  intros Hd Hlen. unfold Py.long_from_digits.
  assert (Hus : Py.starts_with_underscore (NilEmpty.string_of_uint d) = false)
    by (destruct d; reflexivity).
  rewrite Hus, scan_digits_numeral.
  pose proof (length_uint_digits d) as HL.
  pose proof (digits_value_numeral d) as HV.
  destruct (uint_digits d) as [|x ds] eqn:Hds.
  { destruct d; [contradiction | discriminate Hds ..]. }
  rewrite HL. apply Nat.ltb_ge in Hlen. rewrite Hlen. cbn [Py.skip_c_space].
  rewrite HV. reflexivity.
Qed.

Lemma map_space_numeral (d : Decimal.uint) :
  Py.map_string Py.to_ascii_space (NilEmpty.string_of_uint d) =
    NilEmpty.string_of_uint d.
Proof.
  induction d; cbn [NilEmpty.string_of_uint Py.map_string]; [reflexivity | ..];
    rewrite IHd; reflexivity.
Qed.

Lemma long_from_string_numeral (d : Decimal.uint) :
  d <> Decimal.Nil ->
  Py.long_from_string (NilEmpty.string_of_uint d) =
    Py.long_from_digits false (NilEmpty.string_of_uint d).
Proof.
  intros Hd. destruct d; [contradiction | reflexivity ..].
Qed.

(** [int(str(n)) == n], as long as [str(n)] is short enough for [int]. *)
Lemma int_str_of_int (n : Z) :
  (String.length (Py.str_of_int n) <= Py.int_max_str_digits)%nat ->
  Py.int (Py.str_of_int n) = Some n.
Proof.
  unfold Py.str_of_int, Py.int. destruct n as [|p|p]; intros Hlen.
  - reflexivity.
  - cbn [Z.to_int NilZero.string_of_int] in *.
    pose proof (Unsigned.to_uint_nonnil p) as Hnil.
    assert (Hs : NilZero.string_of_uint (Pos.to_uint p) =
                 NilEmpty.string_of_uint (Pos.to_uint p))
      by (destruct (Pos.to_uint p); [contradiction | reflexivity ..]).
    rewrite Hs in *. rewrite map_space_numeral, long_from_string_numeral by exact Hnil.
    rewrite (long_from_digits_numeral false _ Hnil Hlen).
    unfold Z.of_uint. rewrite Unsigned.of_to. reflexivity.
  - cbn [Z.to_int NilZero.string_of_int] in *.
    pose proof (Unsigned.to_uint_nonnil p) as Hnil.
    assert (Hs : NilZero.string_of_uint (Pos.to_uint p) =
                 NilEmpty.string_of_uint (Pos.to_uint p))
      by (destruct (Pos.to_uint p); [contradiction | reflexivity ..]).
    rewrite Hs in *. cbn [Py.map_string String.length] in *.
    rewrite map_space_numeral.
    change (Py.long_from_digits true (NilEmpty.string_of_uint (Pos.to_uint p))
            = Some (Z.neg p)).
    rewrite (long_from_digits_numeral true _ Hnil) by lia.
    unfold Z.of_uint. rewrite Unsigned.of_to. reflexivity.
Qed.

(** ** Trimmed text *)

Lemma lstrip_head (s : string) (c : ascii) (r : string) :
  Py.lstrip s = String c r -> Py.isspace c = false.
Proof.
  induction s as [|x s IH]; [discriminate|]. cbn [Py.lstrip].
  destruct (Py.isspace x) eqn:Hx; [exact IH|].
  intros H. injection H as <- _. exact Hx.
Qed.

(** A trimmed text is empty or starts with a character that is not white
    space. *)
Lemma strip_head (s : string) (c : ascii) (r : string) :
  Py.strip s = String c r -> Py.isspace c = false.
Proof.
  unfold Py.strip. destruct (Py.lstrip s) as [|x t] eqn:Hl; [discriminate|].
  pose proof (lstrip_head s x t Hl) as Hx.
  rewrite (rstrip_cons_nonspace x t Hx). intros H. injection H as <- _.
  exact Hx.
Qed.

Lemma strip_idem (s : string) : Py.strip (Py.strip s) = Py.strip s.
Proof.
  destruct (Py.strip s) as [|c r] eqn:Hs; [reflexivity|].
  pose proof (strip_head s c r Hs) as Hc.
  assert (Hr : Py.rstrip (String c r) = String c r).
  { rewrite <- Hs. unfold Py.strip. apply rstrip_idem. }
  unfold Py.strip. cbn [Py.lstrip]. rewrite Hc. exact Hr.
Qed.

Lemma lstrip_chars (s : string) (c : ascii) :
  In c (chars (Py.lstrip s)) -> In c (chars s).
Proof.
  induction s as [|x s IH]; [trivial|]. cbn [Py.lstrip].
  destruct (Py.isspace x); [|trivial]. intros H. right. apply IH, H.
Qed.

Lemma rstrip_chars (s : string) (c : ascii) :
  In c (chars (Py.rstrip s)) -> In c (chars s).
Proof.
  induction s as [|x s IH]; [trivial|]. rewrite rstrip_cons.
  destruct (Py.rstrip s) as [|y r].
  - destruct (Py.isspace x); [intros []|].
    intros [H|[]]. left. exact H.
  - intros [H|H]; [left; exact H | right; apply IH, H].
Qed.

Lemma strip_chars (s : string) (c : ascii) :
  In c (chars (Py.strip s)) -> In c (chars s).
Proof.
  intros H. apply lstrip_chars, rstrip_chars, H.
Qed.

(** No piece of a split holds the separator. *)
Lemma split_pieces (sep : ascii) (s piece : string) :
  In piece (Py.split sep s) -> ~ In sep (chars piece).
Proof.
  revert piece. induction s as [|c s IH]; intros piece.
  - intros [<-|[]] [].
  - cbn [Py.split]. destruct (Ascii.eqb c sep) eqn:Hc.
    + intros [<-|H]; [intros [] | apply IH, H].
    + pose proof (split_not_nil sep s) as Hne.
      destruct (Py.split sep s) as [|p ps]; [contradiction|].
      intros [<-|H].
      * intros [E|E].
        -- subst c. rewrite Ascii.eqb_refl in Hc. discriminate Hc.
        -- revert E. apply IH. left. reflexivity.
      * apply IH. right. exact H.
Qed.

(** A trimmed line of the output holds no line feed. *)
Lemma output_line_trimmed (out line : string) :
  In line (output_lines out) -> ~ In Py.LF (chars (Py.strip line)).
Proof.
  intros Hin H. apply strip_chars in H.
  exact (split_pieces Py.LF _ line Hin H).
Qed.

(** The first line of an output that is not blank is not blank. *)
Lemma first_line_not_blank (out line0 : string) (rest : list string) :
  Py.strip out <> "" ->
  output_lines out = line0 :: rest ->
  Py.strip line0 <> "".
Proof.
  unfold output_lines. intros Hne.
  destruct (Py.strip out) as [|c r] eqn:Hs; [contradiction|].
  pose proof (strip_head out c r Hs) as Hc.
  cbn [Py.split].
  assert (Hlf : Ascii.eqb c Py.LF = false).
  { destruct (Ascii.eqb c Py.LF) eqn:E; [|reflexivity].
    apply Ascii.eqb_eq in E. subst c. discriminate Hc. }
  rewrite Hlf. pose proof (split_not_nil Py.LF r) as Hr.
  destruct (Py.split Py.LF r) as [|p ps]; [contradiction|].
  intros H. injection H as <- _.
  unfold Py.strip. cbn [Py.lstrip]. rewrite Hc.
  rewrite (rstrip_cons_nonspace c p Hc). discriminate.
Qed.

(** ** What the handlers can answer *)

(** X1.  /extract has three answers only: a response; status 408 with the
    one timeout message; status 500 with a detail that starts "Internal
    server error: ".  No run of the process makes it answer 400. *)
Theorem extract_audio_answers (os : oracle) (request : ExtractRequest.t) :
  ((exists r, extract_audio os request = Ok r) \/
   extract_audio os request =
     Raise (HTTPException 408
              "Request timed out. YouTube may be blocking the request.") \/
   (exists message,
       extract_audio os request =
         Raise (HTTPException 500 ("Internal server error: " ++ message)))) /\
  In (http_status (extract_audio os request)) [200; 408; 500].
Proof.
  assert (H : (exists r, extract_audio os request = Ok r) \/
              extract_audio os request =
                Raise (HTTPException 408
                  "Request timed out. YouTube may be blocking the request.") \/
              (exists message,
                  extract_audio os request =
                    Raise (HTTPException 500
                             ("Internal server error: " ++ message)))).
  { destruct (subprocess_run os (extract_cmd request) 60) as [p|e] eqn:Hrun.
    2:{ rewrite (extract_audio_raised os request e Hrun).
        destruct e; [right; left; reflexivity | right; right; eexists; reflexivity ..]. }
    destruct (Z.eq_dec (returncode p) 0) as [Hrc|Hrc].
    2:{ right; right. rewrite (extract_audio_nonzero os request p Hrun Hrc).
        eexists. reflexivity. }
    destruct (output_lines (stdout p))
      as [|line0 [|line1 [|line2 rest]]] eqn:Hlines.
    4:{ left. rewrite (extract_audio_lines os request p _ _ _ _ Hrun Hrc Hlines).
        eexists. reflexivity. }
    all: right; right;
      rewrite (extract_audio_few_lines os request p Hrun Hrc)
        by (rewrite Hlines; cbn; lia);
      eexists; reflexivity. }
  split; [exact H|].
  destruct H as [[r ->]|[->|[message ->]]]; cbn; auto.
Qed.

(** X2.  /info has two answers only: a response, or status 500 with a
    detail that starts "Internal server error: ".  It never answers 400 or
    408. *)
Theorem get_video_info_answers (os : oracle) (request : ExtractRequest.t) :
  ((exists d, get_video_info os request = Ok d) \/
   (exists message,
       get_video_info os request =
         Raise (HTTPException 500 ("Internal server error: " ++ message)))) /\
  In (http_status (get_video_info os request)) [200; 500].
Proof.
  assert (H : (exists d, get_video_info os request = Ok d) \/
              (exists message,
                  get_video_info os request =
                    Raise (HTTPException 500
                             ("Internal server error: " ++ message)))).
  { destruct (subprocess_run os (info_cmd request) 30) as [p|e] eqn:Hrun.
    2:{ right. rewrite (get_video_info_raised os request e Hrun).
        eexists. reflexivity. }
    destruct (Z.eq_dec (returncode p) 0) as [Hrc|Hrc].
    2:{ right. rewrite (get_video_info_nonzero os request p Hrun Hrc).
        eexists. reflexivity. }
    destruct (output_lines (stdout p))
      as [|line0 [|line1 [|line2 [|line3 rest]]]] eqn:Hlines.
    5:{ left.
        rewrite (get_video_info_lines os request p _ _ _ _ _ Hrun Hrc Hlines).
        eexists. reflexivity. }
    all: right;
      rewrite (get_video_info_few_lines os request p Hrun Hrc)
        by (rewrite Hlines; cbn; lia);
      eexists; reflexivity. }
  split; [exact H|].
  destruct H as [[d ->]|[message ->]]; cbn; auto.
Qed.

(** X3.  /extract returns a response exactly when the run completed with
    exit status zero and its stripped stdout has at least three lines. *)
Theorem extract_audio_succeeds_iff (os : oracle) (request : ExtractRequest.t) :
  (exists r, extract_audio os request = Ok r) <->
  (exists p,
      subprocess_run os (extract_cmd request) 60 = Ok p /\
      returncode p = 0 /\
      (3 <= length (output_lines (stdout p)))%nat).
Proof.
  split.
  - intros [r Hr].
    destruct (subprocess_run os (extract_cmd request) 60) as [p|e] eqn:Hrun.
    2:{ rewrite (extract_audio_raised os request e Hrun) in Hr.
        destruct e; discriminate Hr. }
    destruct (Z.eq_dec (returncode p) 0) as [Hrc|Hrc].
    2:{ rewrite (extract_audio_nonzero os request p Hrun Hrc) in Hr.
        discriminate Hr. }
    exists p. repeat split; try assumption.
    destruct (le_lt_dec 3 (length (output_lines (stdout p)))) as [H|H];
      [exact H|].
    rewrite (extract_audio_few_lines os request p Hrun Hrc H) in Hr.
    discriminate Hr.
  - intros (p & Hrun & Hrc & Hlen).
    destruct (output_lines (stdout p))
      as [|line0 [|line1 [|line2 rest]]] eqn:Hlines;
      try (cbn in Hlen; lia).
    rewrite (extract_audio_lines os request p _ _ _ _ Hrun Hrc Hlines).
    eexists. reflexivity.
Qed.

Lemma extract_audio_succeeds_iff_mocked :
  exists r, extract_audio (completes mocked_process) sample_request = Ok r.
Proof.
  apply (proj2 (extract_audio_succeeds_iff (completes mocked_process)
                  sample_request)).
  exists mocked_process. repeat split; cbn; lia.
Defined.

(** X4.  /info returns a response exactly when the run completed with exit
    status zero and its stripped stdout has at least four lines. *)
Theorem get_video_info_succeeds_iff (os : oracle)
    (request : ExtractRequest.t) :
  (exists d, get_video_info os request = Ok d) <->
  (exists p,
      subprocess_run os (info_cmd request) 30 = Ok p /\
      returncode p = 0 /\
      (4 <= length (output_lines (stdout p)))%nat).
Proof.
  split.
  - intros [d Hd].
    destruct (subprocess_run os (info_cmd request) 30) as [p|e] eqn:Hrun.
    2:{ rewrite (get_video_info_raised os request e Hrun) in Hd.
        discriminate Hd. }
    destruct (Z.eq_dec (returncode p) 0) as [Hrc|Hrc].
    2:{ rewrite (get_video_info_nonzero os request p Hrun Hrc) in Hd.
        discriminate Hd. }
    exists p. repeat split; try assumption.
    destruct (le_lt_dec 4 (length (output_lines (stdout p)))) as [H|H];
      [exact H|].
    rewrite (get_video_info_few_lines os request p Hrun Hrc H) in Hd.
    discriminate Hd.
  - intros (p & Hrun & Hrc & Hlen).
    destruct (output_lines (stdout p))
      as [|line0 [|line1 [|line2 [|line3 rest]]]] eqn:Hlines;
      try (cbn in Hlen; lia).
    rewrite (get_video_info_lines os request p _ _ _ _ _ Hrun Hrc Hlines).
    eexists. reflexivity.
Qed.

Lemma get_video_info_succeeds_iff_sample :
  exists d, get_video_info (completes info_process) sample_request = Ok d.
Proof.
  apply (proj2 (get_video_info_succeeds_iff (completes info_process)
                  sample_request)).
  exists info_process. repeat split; cbn; lia.
Defined.

(** ** Failures of the call itself *)

(** X5.  When [subprocess.run] raises anything but TimeoutExpired (the
    executable is missing, an argument holds a null byte, ...), both
    handlers answer with status 500 and "Internal server error: " followed
    by the text of that exception. *)
Theorem unexpected_exception_is_500 (os : oracle)
    (request : ExtractRequest.t) (message : string) :
  (subprocess_run os (extract_cmd request) 60 = Raise (Exception message) ->
   extract_audio os request =
     Raise (HTTPException 500 ("Internal server error: " ++ message))) /\
  (subprocess_run os (info_cmd request) 30 = Raise (Exception message) ->
   get_video_info os request =
     Raise (HTTPException 500 ("Internal server error: " ++ message))).
Proof.
  split; intros Hrun.
  - rewrite (extract_audio_raised os request _ Hrun). reflexivity.
  - rewrite (get_video_info_raised os request _ Hrun). reflexivity.
Qed.

Lemma unexpected_exception_is_500_missing_tool :
  extract_audio
    (fun _ _ => Raise (Exception "[Errno 2] No such file or directory: 'yt-dlp'"))
    sample_request =
  Raise (HTTPException 500
    "Internal server error: [Errno 2] No such file or directory: 'yt-dlp'").
Proof.
  apply (proj1 (unexpected_exception_is_500
                  (fun _ _ => Raise (Exception "[Errno 2] No such file or directory: 'yt-dlp'"))
                  sample_request
                  "[Errno 2] No such file or directory: 'yt-dlp'")).
  reflexivity.
Defined.

(** X7.  /info reads nothing of a request but its url: two requests with
    the same url give the same command and, the process behaving the same,
    the same answer, whatever their format and quality (a null format
    included). *)
Theorem info_reads_only_the_url (os : oracle) (r1 r2 : ExtractRequest.t) :
  ExtractRequest.url r1 = ExtractRequest.url r2 ->
  info_cmd r1 = info_cmd r2 /\
  get_video_info os r1 = get_video_info os r2.
Proof.
  intros Hurl.
  assert (Hcmd : info_cmd r1 = info_cmd r2)
    by (unfold info_cmd; rewrite Hurl; reflexivity).
  split; [exact Hcmd|]. unfold get_video_info. rewrite Hcmd. reflexivity.
Qed.

Lemma info_reads_only_the_url_sample :
  get_video_info (completes info_process)
    (ExtractRequest.Build "https://www.youtube.com/watch?v=abc" None
       (Some "worst")) =
  get_video_info (completes info_process) sample_request.
Proof.
  apply (info_reads_only_the_url (completes info_process)
           (ExtractRequest.Build "https://www.youtube.com/watch?v=abc" None
              (Some "worst"))
           sample_request).
  reflexivity.
Defined.

(** ** What a response holds *)

(** X8.  Every response of /extract has success true and no error; its url
    is not empty; url and title carry no white space at either end and no
    line feed. *)
Theorem extract_response_is_clean (os : oracle) (request : ExtractRequest.t)
    (r : ExtractResponse.t) :
  extract_audio os request = Ok r ->
  ExtractResponse.success r = true /\
  ExtractResponse.error r = None /\
  exists u t,
    ExtractResponse.url r = Some u /\
    ExtractResponse.title r = Some t /\
    u <> "" /\
    Py.strip u = u /\ Py.strip t = t /\
    ~ In Py.LF (chars u) /\ ~ In Py.LF (chars t).
Proof.
  intros Hr.
  destruct (subprocess_run os (extract_cmd request) 60) as [p|e] eqn:Hrun.
  2:{ rewrite (extract_audio_raised os request e Hrun) in Hr.
      destruct e; discriminate Hr. }
  destruct (Z.eq_dec (returncode p) 0) as [Hrc|Hrc].
  2:{ rewrite (extract_audio_nonzero os request p Hrun Hrc) in Hr.
      discriminate Hr. }
  destruct (output_lines (stdout p))
    as [|line0 [|line1 [|line2 rest]]] eqn:Hlines;
    try (rewrite (extract_audio_few_lines os request p Hrun Hrc) in Hr;
         [discriminate Hr | rewrite Hlines; cbn; lia]).
  rewrite (extract_audio_lines os request p _ _ _ _ Hrun Hrc Hlines) in Hr.
  injection Hr as <-. cbn.
  split; [reflexivity|]. split; [reflexivity|].
  exists (Py.strip line0), (Py.strip line1).
  assert (Hout : Py.strip (stdout p) <> "").
  { intros E. unfold output_lines in Hlines. rewrite E in Hlines.
    discriminate Hlines. }
  repeat split.
  - exact (first_line_not_blank _ _ _ Hout Hlines).
  - apply strip_idem.
  - apply strip_idem.
  - apply (output_line_trimmed (stdout p)). rewrite Hlines. left. reflexivity.
  - apply (output_line_trimmed (stdout p)). rewrite Hlines.
    right. left. reflexivity.
Qed.

Lemma extract_response_is_clean_padded :
  exists u t,
    Some "http://media/1" = Some u /\ Some "Song Title" = Some t /\
    u <> "" /\ Py.strip u = u /\ Py.strip t = t /\
    ~ In Py.LF (chars u) /\ ~ In Py.LF (chars t).
Proof.
  apply (extract_response_is_clean (completes padded_process) sample_request
           (ExtractResponse.Build true (Some "http://media/1")
              (Some "Song Title") (Some 213) None)).
  reflexivity.
Defined.

(** X9.  Every response of /info is the dict with the keys success, title,
    duration, uploader, view_count in that order; success is True and the
    four others are strings with no white space at either end and no line
    feed; the title is not empty. *)
Theorem info_response_is_clean (os : oracle) (request : ExtractRequest.t)
    (d : dict) :
  get_video_info os request = Ok d ->
  exists t n u v,
    d = [ ("success", PyBool true); ("title", PyStr t);
          ("duration", PyStr n); ("uploader", PyStr u);
          ("view_count", PyStr v) ] /\
    t <> "" /\
    Forall (fun s => Py.strip s = s /\ ~ In Py.LF (chars s)) [t; n; u; v].
Proof.
  intros Hd.
  destruct (subprocess_run os (info_cmd request) 30) as [p|e] eqn:Hrun.
  2:{ rewrite (get_video_info_raised os request e Hrun) in Hd.
      discriminate Hd. }
  destruct (Z.eq_dec (returncode p) 0) as [Hrc|Hrc].
  2:{ rewrite (get_video_info_nonzero os request p Hrun Hrc) in Hd.
      discriminate Hd. }
  destruct (output_lines (stdout p))
    as [|line0 [|line1 [|line2 [|line3 rest]]]] eqn:Hlines;
    try (rewrite (get_video_info_few_lines os request p Hrun Hrc) in Hd;
         [discriminate Hd | rewrite Hlines; cbn; lia]).
  rewrite (get_video_info_lines os request p _ _ _ _ _ Hrun Hrc Hlines) in Hd.
  injection Hd as <-.
  exists (Py.strip line0), (Py.strip line1), (Py.strip line2),
         (Py.strip line3).
  assert (Hout : Py.strip (stdout p) <> "").
  { intros E. unfold output_lines in Hlines. rewrite E in Hlines.
    discriminate Hlines. }
  split; [reflexivity|].
  split; [exact (first_line_not_blank _ _ _ Hout Hlines)|].
  repeat constructor; try apply strip_idem;
    apply (output_line_trimmed (stdout p)); rewrite Hlines; cbn; auto.
Qed.

Lemma info_response_is_clean_sample :
  exists t n u v,
    [ ("success", PyBool true); ("title", PyStr "Song Title");
      ("duration", PyStr "213"); ("uploader", PyStr "Some Channel");
      ("view_count", PyStr "1000") ] =
    [ ("success", PyBool true); ("title", PyStr t);
      ("duration", PyStr n); ("uploader", PyStr u);
      ("view_count", PyStr v) ] /\
    t <> "" /\
    Forall (fun s => Py.strip s = s /\ ~ In Py.LF (chars s)) [t; n; u; v].
Proof.
  apply (info_response_is_clean (completes info_process) sample_request).
  reflexivity.
Defined.

(** ** Numbers *)





(** ** Which stream is read *)

(** X12.  The exit status decides which stream is read.  After a non-zero
    exit the answer depends on stderr alone: neither stdout nor the value
    of the status changes it.  After a zero exit it depends on stdout
    alone. *)
Theorem exit_status_selects_stream (os os' : oracle)
    (request : ExtractRequest.t) (p p' : CompletedProcess) :
  (subprocess_run os (extract_cmd request) 60 = Ok p ->
   subprocess_run os' (extract_cmd request) 60 = Ok p' ->
   (returncode p <> 0 -> returncode p' <> 0 -> stderr p = stderr p' ->
    extract_audio os request = extract_audio os' request) /\
   (returncode p = 0 -> returncode p' = 0 -> stdout p = stdout p' ->
    extract_audio os request = extract_audio os' request)) /\
  (subprocess_run os (info_cmd request) 30 = Ok p ->
   subprocess_run os' (info_cmd request) 30 = Ok p' ->
   (returncode p <> 0 -> returncode p' <> 0 -> stderr p = stderr p' ->
    get_video_info os request = get_video_info os' request) /\
   (returncode p = 0 -> returncode p' = 0 -> stdout p = stdout p' ->
    get_video_info os request = get_video_info os' request)).
Proof.
  split; intros Hrun Hrun'; split.
  - intros Hrc Hrc' Herr.
    rewrite (extract_audio_nonzero os request p Hrun Hrc).
    rewrite (extract_audio_nonzero os' request p' Hrun' Hrc'), Herr.
    reflexivity.
  - intros Hrc Hrc' Hout. unfold extract_audio.
    rewrite Hrun, Hrun'. cbn [bind]. rewrite Hrc, Hrc', Hout. reflexivity.
  - intros Hrc Hrc' Herr.
    rewrite (get_video_info_nonzero os request p Hrun Hrc).
    rewrite (get_video_info_nonzero os' request p' Hrun' Hrc'), Herr.
    reflexivity.
  - intros Hrc Hrc' Hout. unfold get_video_info.
    rewrite Hrun, Hrun'. cbn [bind]. rewrite Hrc, Hrc', Hout. reflexivity.
Qed.

Lemma exit_status_selects_stream_sample :
  extract_audio (completes failed_process) sample_request =
  extract_audio
    (completes {| returncode := 2;
                  stdout := "http://media/1" ++ nl ++ "Song Title" ++ nl ++ "213";
                  stderr := "ERROR: Video unavailable" |})
    sample_request.
Proof.
  apply (proj1 (proj1 (exit_status_selects_stream
                  (completes failed_process)
                  (completes {| returncode := 2;
                     stdout := "http://media/1" ++ nl ++ "Song Title" ++ nl ++ "213";
                     stderr := "ERROR: Video unavailable" |})
                  sample_request failed_process
                  {| returncode := 2;
                     stdout := "http://media/1" ++ nl ++ "Song Title" ++ nl ++ "213";
                     stderr := "ERROR: Video unavailable" |})
                eq_refl eq_refl));
    [discriminate | discriminate | reflexivity].
Defined.

(** ** The start-up *)

(** X13.  The port of the server: 8000 when PORT is not set; [n] when PORT
    holds [str(n)] (of at most 4300 characters); none, the start-up ending
    in a ValueError, when [int] refuses what PORT holds. *)
Theorem main_port_of_environ (env : environ) :
  (env "PORT" = None -> main_port env = Some 8000) /\
  (forall n,
      env "PORT" = Some (Py.str_of_int n) ->
      (String.length (Py.str_of_int n) <= Py.int_max_str_digits)%nat ->
      main_port env = Some n) /\
  (forall value,
      env "PORT" = Some value -> Py.int value = None -> main_port env = None).
Proof.
  unfold main_port. repeat split.
  - intros ->. reflexivity.
  - intros n -> Hlen. apply int_str_of_int, Hlen.
  - intros value -> H. exact H.
Qed.

Lemma main_port_of_environ_9000 :
  main_port (fun key => if String.eqb key "PORT" then Some "9000" else None)
  = Some 9000.
Proof.
  apply (proj1 (proj2 (main_port_of_environ
           (fun key => if String.eqb key "PORT" then Some "9000" else None)))
           9000); [reflexivity|].
  cbn. unfold Py.int_max_str_digits. lia.
Defined.

(** ** White space around the output *)

Lemma lstrip_blank_app (w s : string) :
  Py.lstrip w = "" -> Py.lstrip (w ++ s) = Py.lstrip s.
Proof.
  induction w as [|c w IH]; [reflexivity|]. cbn [append Py.lstrip].
  destruct (Py.isspace c); [exact IH | discriminate].
Qed.

Lemma lstrip_idem (s : string) : Py.lstrip (Py.lstrip s) = Py.lstrip s.
Proof.
  induction s as [|c s IH]; [reflexivity|]. cbn [Py.lstrip].
  destruct (Py.isspace c) eqn:Hc; [exact IH|]. cbn [Py.lstrip].
  rewrite Hc. reflexivity.
Qed.

Lemma lstrip_blank_rstrip (w : string) : Py.lstrip w = "" -> Py.rstrip w = "".
Proof.
  induction w as [|c w IH]; [reflexivity|]. cbn [Py.lstrip].
  destruct (Py.isspace c) eqn:Hc; [|discriminate].
  intros H. rewrite rstrip_cons, (IH H), Hc. reflexivity.
Qed.

Lemma strip_blank (w : string) :
  Py.strip w = "" -> Py.lstrip w = "" /\ Py.rstrip w = "".
Proof.
  unfold Py.strip. intros H. apply rstrip_blank_lstrip in H.
  rewrite lstrip_idem in H. split; [exact H | apply lstrip_blank_rstrip, H].
Qed.

Lemma strip_padded (before after out : string) :
  Py.strip before = "" -> Py.strip after = "" ->
  Py.strip (before ++ out ++ after) = Py.strip out.
Proof.
  intros Hb Ha. apply strip_blank in Hb, Ha.
  destruct Hb as [Hb _]. destruct Ha as [Hal Har].
  unfold Py.strip. rewrite (lstrip_blank_app before _ Hb).
  destruct (Py.lstrip out) as [|c r] eqn:Hl.
  - rewrite (lstrip_blank_app out after Hl), Hal. reflexivity.
  - rewrite lstrip_app by (rewrite Hl; discriminate).
    rewrite Hl. apply rstrip_app_blank, Har.
Qed.

(** X14.  White space and blank lines before or after the whole output
    change no answer: a run that exits with status zero and prints the
    same text between blank text is answered the same. *)
Theorem blank_padding_is_ignored (os os' : oracle)
    (request : ExtractRequest.t) (p p' : CompletedProcess)
    (before after : string) :
  Py.strip before = "" -> Py.strip after = "" ->
  returncode p = 0 -> returncode p' = 0 ->
  stdout p' = before ++ stdout p ++ after ->
  (subprocess_run os (extract_cmd request) 60 = Ok p ->
   subprocess_run os' (extract_cmd request) 60 = Ok p' ->
   extract_audio os' request = extract_audio os request) /\
  (subprocess_run os (info_cmd request) 30 = Ok p ->
   subprocess_run os' (info_cmd request) 30 = Ok p' ->
   get_video_info os' request = get_video_info os request).
Proof.
  intros Hb Ha Hrc Hrc' Hout.
  assert (Hlines : output_lines (stdout p') = output_lines (stdout p)).
  { unfold output_lines. rewrite Hout, (strip_padded _ _ _ Hb Ha).
    reflexivity. }
  split; intros Hrun Hrun'.
  - unfold extract_audio. rewrite Hrun, Hrun'. cbn [bind].
    rewrite Hrc, Hrc', Hlines. reflexivity.
  - unfold get_video_info. rewrite Hrun, Hrun'. cbn [bind].
    rewrite Hrc, Hrc', Hlines. reflexivity.
Qed.

Lemma blank_padding_is_ignored_sample :
  extract_audio
    (completes {| returncode := 0;
                  stdout := (nl ++ "  ") ++ stdout mocked_process ++ (nl ++ nl);
                  stderr := "" |})
    sample_request =
  extract_audio (completes mocked_process) sample_request.
Proof.
  apply (proj1 (blank_padding_is_ignored
                  (completes mocked_process)
                  (completes {| returncode := 0;
                     stdout := (nl ++ "  ") ++ stdout mocked_process
                               ++ (nl ++ nl);
                     stderr := "" |})
                  sample_request mocked_process
                  {| returncode := 0;
                     stdout := (nl ++ "  ") ++ stdout mocked_process
                               ++ (nl ++ nl);
                     stderr := "" |}
                  (nl ++ "  ") (nl ++ nl)
                  eq_refl eq_refl eq_refl eq_refl eq_refl));
    reflexivity.
Defined.

(** ** Trimming and lines meet their meaning *)

Lemma isspace_whitespace (c : ascii) :
  Py.isspace c = true <-> whitespace c.
Proof.
  unfold whitespace.
  destruct c as [[] [] [] [] [] [] [] []]; split; intros H;
    try discriminate H; try reflexivity;
    try (vm_compute; tauto);
    vm_compute in H; repeat (destruct H as [H|H]; [discriminate H|]);
    contradiction.
Qed.

Lemma not_whitespace (c : ascii) : Py.isspace c = false -> ~ whitespace c.
Proof.
  intros H W. apply isspace_whitespace in W. rewrite W in H. discriminate H.
Qed.

Lemma blank_nil : blank "".
Proof. constructor. Qed.

Lemma blank_cons (c : ascii) (s : string) :
  blank (String c s) <-> whitespace c /\ blank s.
Proof.
  unfold blank. cbn. split.
  - intros H. inversion H; subst. split; assumption.
  - intros [H1 H2]. constructor; assumption.
Qed.

Lemma blank_lstrip (w : string) : blank w <-> Py.lstrip w = "".
Proof.
  induction w as [|c w IH]; [split; [reflexivity | intros _; apply blank_nil]|].
  rewrite blank_cons. cbn [Py.lstrip]. destruct (Py.isspace c) eqn:Hc.
  - rewrite <- IH. split; [intros [_ H]; exact H|].
    intros H. split; [apply isspace_whitespace, Hc | exact H].
  - split; [|discriminate]. intros [H _]. destruct (not_whitespace c Hc H).
Qed.

Lemma blank_rstrip (w : string) : blank w -> Py.rstrip w = "".
Proof.
  intros H. apply lstrip_blank_rstrip, blank_lstrip, H.
Qed.

Lemma rstrip_blank (w : string) : Py.rstrip w = "" -> blank w.
Proof.
  intros H. apply blank_lstrip, rstrip_blank_lstrip, H.
Qed.

(** A text is white space followed by its [lstrip]. *)
Lemma lstrip_front (s : string) :
  exists w, s = w ++ Py.lstrip s /\ blank w.
Proof.
  induction s as [|c s (w & Hs & Hw)]; [exists ""; split; [reflexivity | apply blank_nil]|].
  cbn [Py.lstrip]. destruct (Py.isspace c) eqn:Hc.
  - exists (String c w). split; [cbn [append]; f_equal; exact Hs|].
    apply blank_cons. split; [apply isspace_whitespace, Hc | exact Hw].
  - exists "". split; [reflexivity | apply blank_nil].
Qed.

Lemma rstrip_last (s front : string) (c : ascii) :
  Py.rstrip s = front ++ String c "" -> Py.isspace c = false.
Proof.
  revert front. induction s as [|x s IH]; intros front.
  - destruct front; discriminate.
  - rewrite rstrip_cons. destruct (Py.rstrip s) as [|y r] eqn:Hr.
    + destruct (Py.isspace x) eqn:Hx; [destruct front; discriminate|].
      destruct front as [|f front]; cbn [append].
      * intros H. injection H as <-. exact Hx.
      * intros H. injection H as _ H. destruct front; discriminate H.
    + destruct front as [|f front]; cbn [append].
      * intros H. discriminate H.
      * intros H. injection H as _ H. apply (IH front). exact H.
Qed.

(** [strip] removes the leading and trailing white space. *)
Lemma strip_trimmed (s : string) : trimmed_from s (Py.strip s).
Proof.
  unfold trimmed_from. repeat split.
  - destruct (lstrip_front s) as (before & Hs & Hb).
    destruct (rstrip_tail (Py.lstrip s)) as (after & Ht & Ha).
    exists before, after. fold (Py.strip s) in Ht.
    split; [rewrite <- Ht; exact Hs|].
    split; [exact Hb | apply rstrip_blank, Ha].
  - intros c rest H. apply not_whitespace, (strip_head s c rest H).
  - intros front c H. apply not_whitespace.
    apply (rstrip_last (Py.lstrip s) front c H).
Qed.

Lemma rstrip_fixed (u : string) :
  (forall front c, u = front ++ String c "" -> ~ whitespace c) ->
  Py.rstrip u = u.
Proof.
  induction u as [|x u IH]; intros H; [reflexivity|].
  rewrite rstrip_cons.
  destruct u as [|y u].
  - cbn [Py.rstrip]. destruct (Py.isspace x) eqn:Hx; [|reflexivity].
    destruct (H "" x eq_refl). apply isspace_whitespace, Hx.
  - rewrite IH.
    + reflexivity.
    + intros front c E. apply (H (String x front) c). cbn [append].
      f_equal. exact E.
Qed.

(** Nothing else is the line without its leading and trailing white
    space. *)
Lemma trimmed_is_strip (line field : string) :
  trimmed_from line field -> field = Py.strip line.
Proof.
  intros ((before & after & -> & Hb & Ha) & Hfirst & Hlast).
  unfold Py.strip.
  rewrite (lstrip_blank_app before _ (proj1 (blank_lstrip before) Hb)).
  destruct field as [|c r].
  - cbn [append]. rewrite (proj1 (blank_lstrip after) Ha). reflexivity.
  - assert (Hc : Py.isspace c = false).
    { destruct (Py.isspace c) eqn:E; [|reflexivity].
      destruct (Hfirst c r eq_refl). apply isspace_whitespace, E. }
    cbn [append Py.lstrip]. rewrite Hc.
    change (String c (r ++ after)) with (String c r ++ after).
    rewrite (rstrip_app_blank _ _ (blank_rstrip after Ha)).
    symmetry. apply rstrip_fixed, Hlast.
Qed.

Lemma trimmed_from_iff (line field : string) :
  trimmed_from line field <-> field = Py.strip line.
Proof.
  split; [apply trimmed_is_strip | intros ->; apply strip_trimmed].
Qed.

(** Joining the pieces of a split gives the text back. *)
Lemma join_split (sep : ascii) (s : string) :
  join sep (Py.split sep s) = s.
Proof.
  induction s as [|c s IH]; [reflexivity|]. cbn [Py.split].
  pose proof (split_not_nil sep s) as Hne.
  destruct (Ascii.eqb c sep) eqn:Hc.
  - apply Ascii.eqb_eq in Hc. subst c.
    destruct (Py.split sep s) as [|p ps]; [contradiction|].
    cbn [join append] in *. rewrite IH. reflexivity.
  - destruct (Py.split sep s) as [|p [|q ps]]; [contradiction| |];
      cbn [join append] in *; rewrite IH; reflexivity.
Qed.

Lemma split_one_piece (sep : ascii) (s : string) :
  ~ In sep (chars s) -> Py.split sep s = [s].
Proof.
  induction s as [|c s IH]; intros H; [reflexivity|]. cbn [Py.split].
  destruct (Ascii.eqb c sep) eqn:Hc.
  - apply Ascii.eqb_eq in Hc. destruct H. left. exact Hc.
  - rewrite IH; [reflexivity|]. intros E. apply H. right. exact E.
Qed.

(** Texts without the separator are the pieces of their join. *)
Lemma split_join (sep : ascii) (pieces : list string) :
  pieces <> [] ->
  Forall (fun piece => ~ In sep (chars piece)) pieces ->
  Py.split sep (join sep pieces) = pieces.
Proof.
  induction pieces as [|p ps IH]; intros Hne Hall; [contradiction|].
  inversion Hall as [|? ? Hp Hps]; subst.
  destruct ps as [|q ps]; [apply split_one_piece, Hp|].
  change (join sep (p :: q :: ps)) with (p ++ String sep (join sep (q :: ps))).
  rewrite split_app, (split_one_piece sep p Hp).
  cbn [removelast last app Py.split]. rewrite Ascii.eqb_refl.
  cbn [hd tl]. rewrite append_empty, IH by (discriminate || assumption).
  reflexivity.
Qed.

(** The lines of the handlers are the lines of the trimmed output. *)
Lemma lines_of_output_iff (out : string) (lines : list string) :
  lines_of_output out lines <-> lines = output_lines out.
Proof.
  unfold lines_of_output, output_lines. split.
  - intros (Hne & Hall & Htrim). apply trimmed_is_strip in Htrim.
    rewrite <- Htrim. symmetry. apply split_join; assumption.
  - intros ->. split; [apply split_not_nil|]. split.
    + apply Forall_forall. intros line Hin. exact (split_pieces _ _ _ Hin).
    + rewrite join_split. apply strip_trimmed.
Qed.

Example text_lines_sample :
  text_lines "" = [] /\ text_lines "a" = ["a"] /\
  text_lines ("a" ++ nl) = ["a"] /\
  text_lines ("a" ++ nl ++ "b" ++ nl ++ nl) = ["a"; "b"; ""] /\
  text_lines (nl ++ "a") = [""; "a"].
Proof. repeat split; reflexivity. Qed.

(** ** The success path without a duration, and the success path of /info *)

(** C3, as amended.  When the process exits with status zero, the stdout
    trimmed as a whole has at least three lines and [int] refuses the
    third of them, trimmed, /extract still returns success=true with url
    and title the first two lines, each without its leading and trailing
    white space, and duration is None: no error is raised. *)
Theorem C3_duration_absent (os : oracle) (request : ExtractRequest.t)
    (p : CompletedProcess) (line0 line1 line2 : string)
    (rest : list string) (d : string) :
  subprocess_run os (extract_cmd request) 60 = Ok p ->
  returncode p = 0 ->
  lines_of_output (stdout p) (line0 :: line1 :: line2 :: rest) ->
  trimmed_from line2 d ->
  Py.int d = None ->
  exists u t,
    trimmed_from line0 u /\ trimmed_from line1 t /\
    extract_audio os request =
      Ok (ExtractResponse.Build true (Some u) (Some t) None None).
Proof.
  intros Hrun Hrc Hlines Hd Hint.
  apply lines_of_output_iff in Hlines. symmetry in Hlines.
  apply trimmed_is_strip in Hd. subst d.
  exists (Py.strip line0), (Py.strip line1).
  split; [apply strip_trimmed|]. split; [apply strip_trimmed|].
  rewrite (extract_audio_lines os request p _ _ _ _ Hrun Hrc Hlines), Hint.
  reflexivity.
Qed.

(** A live stream, its lines printed with blanks around them. *)
Lemma C3_duration_absent_live :
  extract_audio (completes padded_live_process) sample_request =
    Ok (ExtractResponse.Build true (Some "http://media/1")
          (Some "Song Title") None None).
Proof.
  assert (Hlines : lines_of_output (stdout padded_live_process)
                     ["http://media/1"; "  Song Title  "; " N/A"])
    by (apply lines_of_output_iff; reflexivity).
  assert (Hd : trimmed_from " N/A" "N/A")
    by (apply trimmed_from_iff; reflexivity).
  destruct (C3_duration_absent (completes padded_live_process)
              sample_request padded_live_process
              "http://media/1" "  Song Title  " " N/A" [] "N/A"
              eq_refl eq_refl Hlines Hd eq_refl)
    as (u & t & Hu & Ht & Hr).
  apply trimmed_is_strip in Hu, Ht. subst u t. exact Hr.
Defined.

(** C7, as amended.  When the process exits with status zero and the
    stdout trimmed as a whole has at least four lines, /info returns
    success=True and the first four of those lines, each without its
    leading and trailing white space, under title, duration, uploader and
    view_count in that order; all four values are strings, duration and
    view_count included. *)
Theorem C7_info_success (os : oracle) (request : ExtractRequest.t)
    (p : CompletedProcess) (line0 line1 line2 line3 : string)
    (rest : list string) :
  subprocess_run os (info_cmd request) 30 = Ok p ->
  returncode p = 0 ->
  lines_of_output (stdout p) (line0 :: line1 :: line2 :: line3 :: rest) ->
  exists t n u v,
    trimmed_from line0 t /\ trimmed_from line1 n /\
    trimmed_from line2 u /\ trimmed_from line3 v /\
    get_video_info os request =
      Ok [ ("success", PyBool true);
           ("title", PyStr t);
           ("duration", PyStr n);
           ("uploader", PyStr u);
           ("view_count", PyStr v) ].
Proof.
  intros Hrun Hrc Hlines.
  apply lines_of_output_iff in Hlines. symmetry in Hlines.
  exists (Py.strip line0), (Py.strip line1), (Py.strip line2),
         (Py.strip line3).
  repeat (split; [apply strip_trimmed|]).
  exact (get_video_info_lines os request p _ _ _ _ _ Hrun Hrc Hlines).
Qed.

(** The four fields printed with blanks around them. *)
Lemma C7_info_success_sample :
  get_video_info (completes padded_info_process) sample_request =
    Ok [ ("success", PyBool true);
         ("title", PyStr "Song Title");
         ("duration", PyStr "213");
         ("uploader", PyStr "Some Channel");
         ("view_count", PyStr "1000") ].
Proof.
  assert (Hlines : lines_of_output (stdout padded_info_process)
                     ["Song Title "; "213  "; "  Some Channel"; " 1000"])
    by (apply lines_of_output_iff; reflexivity).
  destruct (C7_info_success (completes padded_info_process) sample_request
              padded_info_process
              "Song Title " "213  " "  Some Channel" " 1000" []
              eq_refl eq_refl Hlines)
    as (t & n & u & v & Ht & Hn & Hu & Hv & Hr).
  apply trimmed_is_strip in Ht, Hn, Hu, Hv. subst t n u v. exact Hr.
Defined.

(** ** Lines as printed and lines of the trimmed output *)

(** C3 as stated fails.  With the output "http://media/1", "Song Title" and
    an empty third line, stdout has three lines and [int] refuses the
    third, but trimming the whole output leaves two lines and /extract
    fails.  With a third line made of the separator US and "5", [int]
    refuses the line as printed, yet the handler trims it first and
    returns duration 5. *)
Lemma C3_blank_third_line_fails :
  text_lines (stdout blank_third_process) =
    ["http://media/1"; "Song Title"; ""] /\
  Py.int "" = None /\
  extract_audio (completes blank_third_process) sample_request =
    Raise (HTTPException 500
             "Internal server error: 400: Invalid output from yt-dlp") /\
  ~ duration_absent_on_printed_lines (completes blank_third_process)
      sample_request /\
  Py.int (String (ascii_of_N 31) "5") = None /\
  extract_audio (completes separator_third_process) sample_request =
    Ok (ExtractResponse.Build true (Some "http://media/1")
          (Some "Song Title") (Some 5) None) /\
  ~ duration_absent_on_printed_lines (completes separator_third_process)
      sample_request.
Proof.
  repeat split; try reflexivity.
  - intros H.
    destruct (H blank_third_process "http://media/1" "Song Title" "" []
                eq_refl eq_refl eq_refl eq_refl) as (u & t & E).
    vm_compute in E. discriminate E.
  - intros H.
    destruct (H separator_third_process "http://media/1" "Song Title"
                (String (ascii_of_N 31) "5") ["extra"]
                eq_refl eq_refl eq_refl eq_refl) as (u & t & E).
    vm_compute in E. discriminate E.
Qed.

(** C7 as stated fails.  With the output "Song Title", "213", "Some
    Channel" and an empty fourth line, stdout has four lines, but trimming
    the whole output leaves three and /info fails.  With an empty line
    before the four fields, the title is the second line of stdout, not
    the first. *)
Lemma C7_blank_line_fails :
  text_lines (stdout blank_fourth_process) =
    ["Song Title"; "213"; "Some Channel"; ""] /\
  get_video_info (completes blank_fourth_process) sample_request =
    Raise (HTTPException 500
             "Internal server error: 400: Invalid output from yt-dlp") /\
  ~ info_maps_printed_lines (completes blank_fourth_process) sample_request /\
  text_lines (stdout blank_first_process) =
    [""; "Song Title"; "213"; "Some Channel"; "1000"] /\
  get_video_info (completes blank_first_process) sample_request =
    Ok [ ("success", PyBool true); ("title", PyStr "Song Title");
         ("duration", PyStr "213"); ("uploader", PyStr "Some Channel");
         ("view_count", PyStr "1000") ] /\
  ~ info_maps_printed_lines (completes blank_first_process) sample_request.
Proof.
  repeat split; try reflexivity.
  - intros H.
    specialize (H blank_fourth_process "Song Title" "213" "Some Channel" ""
                  [] eq_refl eq_refl eq_refl).
    vm_compute in H. discriminate H.
  - intros H.
    specialize (H blank_first_process "" "Song Title" "213" "Some Channel"
                  ["1000"] eq_refl eq_refl eq_refl).
    vm_compute in H. discriminate H.
Qed.

(** ** The commands *)

(** C8.  For every request the command list of /extract is yt-dlp,
    --no-playlist, --extract-audio, --audio-format mp3, --audio-quality 0,
    --format and the request's format, --no-warnings, --quiet, --print url,
    --print title, --print duration, --user-agent and the fixed browser
    string, and the request's url last.  The command list of /info is
    yt-dlp, --no-playlist, --no-warnings, --quiet, --print title, --print
    duration, --print uploader, --print view_count, the same --user-agent
    and the url last; none of the four extraction flags comes before the
    url.  The handlers run these commands and no other: whatever else the
    machine would do, /extract answers from the run of its twenty
    arguments under 60 seconds (408 when it times out, 500 with the text
    when it cannot start, the response made of its first three lines when
    it completes), and /info from the run of its fifteen arguments under
    30 seconds. *)
Theorem C8_commands (request : ExtractRequest.t) :
  extract_cmd request =
    [ Some "yt-dlp"; Some "--no-playlist"; Some "--extract-audio";
      Some "--audio-format"; Some "mp3"; Some "--audio-quality"; Some "0";
      Some "--format"; ExtractRequest.format request;
      Some "--no-warnings"; Some "--quiet";
      Some "--print"; Some "url"; Some "--print"; Some "title";
      Some "--print"; Some "duration";
      Some "--user-agent";
      Some "Mozilla/5.0 (Windows NT 10.0; Win64; x64) AppleWebKit/537.36 (KHTML, like Gecko) Chrome/120.0.0.0 Safari/537.36";
      Some (ExtractRequest.url request) ] /\
  info_cmd request =
    [ Some "yt-dlp"; Some "--no-playlist";
      Some "--no-warnings"; Some "--quiet";
      Some "--print"; Some "title"; Some "--print"; Some "duration";
      Some "--print"; Some "uploader"; Some "--print"; Some "view_count";
      Some "--user-agent";
      Some "Mozilla/5.0 (Windows NT 10.0; Win64; x64) AppleWebKit/537.36 (KHTML, like Gecko) Chrome/120.0.0.0 Safari/537.36";
      Some (ExtractRequest.url request) ] /\
  last (extract_cmd request) None = Some (ExtractRequest.url request) /\
  last (info_cmd request) None = Some (ExtractRequest.url request) /\
  (forall flag,
      In flag ["--extract-audio"; "--audio-format"; "--audio-quality";
               "--format"] ->
      ~ In (Some flag) (removelast (info_cmd request))) /\
  (forall (os : oracle) (f : string),
      ExtractRequest.format request = Some f ->
      let command :=
        [ "yt-dlp"; "--no-playlist"; "--extract-audio";
          "--audio-format"; "mp3"; "--audio-quality"; "0";
          "--format"; f; "--no-warnings"; "--quiet";
          "--print"; "url"; "--print"; "title"; "--print"; "duration";
          "--user-agent";
          "Mozilla/5.0 (Windows NT 10.0; Win64; x64) AppleWebKit/537.36 (KHTML, like Gecko) Chrome/120.0.0.0 Safari/537.36";
          ExtractRequest.url request ] in
      (forall message,
          os command 60 = Raise (TimeoutExpired message) ->
          extract_audio os request =
            Raise (HTTPException 408
                     "Request timed out. YouTube may be blocking the request.")) /\
      (forall message,
          os command 60 = Raise (Exception message) ->
          extract_audio os request =
            Raise (HTTPException 500 ("Internal server error: " ++ message))) /\
      (forall p line0 line1 line2 rest,
          os command 60 = Ok p ->
          returncode p = 0 ->
          output_lines (stdout p) = line0 :: line1 :: line2 :: rest ->
          extract_audio os request =
            Ok (ExtractResponse.Build true (Some (Py.strip line0))
                  (Some (Py.strip line1)) (Py.int (Py.strip line2)) None)) /\
      (forall os' : oracle,
          os' command 60 = os command 60 ->
          extract_audio os' request = extract_audio os request)) /\
  (forall os : oracle,
      let command :=
        [ "yt-dlp"; "--no-playlist"; "--no-warnings"; "--quiet";
          "--print"; "title"; "--print"; "duration";
          "--print"; "uploader"; "--print"; "view_count";
          "--user-agent";
          "Mozilla/5.0 (Windows NT 10.0; Win64; x64) AppleWebKit/537.36 (KHTML, like Gecko) Chrome/120.0.0.0 Safari/537.36";
          ExtractRequest.url request ] in
      (forall message,
          os command 30 = Raise (Exception message) ->
          get_video_info os request =
            Raise (HTTPException 500 ("Internal server error: " ++ message))) /\
      (forall p line0 line1 line2 line3 rest,
          os command 30 = Ok p ->
          returncode p = 0 ->
          output_lines (stdout p) = line0 :: line1 :: line2 :: line3 :: rest ->
          get_video_info os request =
            Ok [ ("success", PyBool true);
                 ("title", PyStr (Py.strip line0));
                 ("duration", PyStr (Py.strip line1));
                 ("uploader", PyStr (Py.strip line2));
                 ("view_count", PyStr (Py.strip line3)) ]) /\
      (forall os' : oracle,
          os' command 30 = os command 30 ->
          get_video_info os' request = get_video_info os request)).
Proof.
  split; [reflexivity|]. split; [reflexivity|].
  split; [reflexivity|]. split; [reflexivity|]. split; [|split].
  - intros flag Hflag Hin. cbn in Hflag, Hin.
    repeat (destruct Hflag as [<- | Hflag];
            [ repeat (destruct Hin as [Heq | Hin];
                      [discriminate Heq|]); exact Hin | ]).
    exact Hflag.
  - intros os f Hf command.
    assert (Hrun : forall w : oracle,
               subprocess_run w (extract_cmd request) 60 = w command 60).
    { intros w. unfold subprocess_run, extract_cmd. rewrite Hf. reflexivity. }
    repeat split.
    + intros message H.
      rewrite (extract_audio_raised os request (TimeoutExpired message));
        [reflexivity | rewrite Hrun; exact H].
    + intros message H.
      rewrite (extract_audio_raised os request (Exception message));
        [reflexivity | rewrite Hrun; exact H].
    + intros p line0 line1 line2 rest H Hrc Hlines.
      apply (extract_audio_lines os request p _ _ _ rest);
        [rewrite Hrun| |]; assumption.
    + intros os' H. apply extract_audio_one_call. rewrite !Hrun. exact H.
  - intros os command.
    assert (Hrun : forall w : oracle,
               subprocess_run w (info_cmd request) 30 = w command 30)
      by reflexivity.
    repeat split.
    + intros message H.
      rewrite (get_video_info_raised os request (Exception message));
        [reflexivity | rewrite Hrun; exact H].
    + intros p line0 line1 line2 line3 rest H Hrc Hlines.
      apply (get_video_info_lines os request p _ _ _ _ rest);
        [rewrite Hrun| |]; assumption.
    + intros os' H. apply get_video_info_one_call. rewrite !Hrun. exact H.
Qed.

(** On a machine where nothing but the command of /extract, under 60
    seconds, can be run, /extract gets the mocked output. *)
Lemma C8_commands_only_command :
  extract_audio
    (answers_only
       [ "yt-dlp"; "--no-playlist"; "--extract-audio";
         "--audio-format"; "mp3"; "--audio-quality"; "0";
         "--format"; "bestaudio"; "--no-warnings"; "--quiet";
         "--print"; "url"; "--print"; "title"; "--print"; "duration";
         "--user-agent";
         "Mozilla/5.0 (Windows NT 10.0; Win64; x64) AppleWebKit/537.36 (KHTML, like Gecko) Chrome/120.0.0.0 Safari/537.36";
         "https://www.youtube.com/watch?v=abc" ]
       60 mocked_process)
    sample_request =
  Ok (ExtractResponse.Build true (Some "http://media/1") (Some "Song Title")
        (Some 213) None).
Proof.
  destruct (C8_commands sample_request) as (_ & _ & _ & _ & _ & Hextract & _).
  destruct (Hextract
              (answers_only
                 [ "yt-dlp"; "--no-playlist"; "--extract-audio";
                   "--audio-format"; "mp3"; "--audio-quality"; "0";
                   "--format"; "bestaudio"; "--no-warnings"; "--quiet";
                   "--print"; "url"; "--print"; "title";
                   "--print"; "duration"; "--user-agent";
                   "Mozilla/5.0 (Windows NT 10.0; Win64; x64) AppleWebKit/537.36 (KHTML, like Gecko) Chrome/120.0.0.0 Safari/537.36";
                   "https://www.youtube.com/watch?v=abc" ]
                 60 mocked_process)
              "bestaudio" eq_refl) as (_ & _ & Hok & _).
  apply (Hok mocked_process "http://media/1" "Song Title" "213" []);
    reflexivity.
Defined.

(** ** Trimmed fields, first lines only *)




